(** * Order placement and order status of the storefront API

    A shallow embedding of [controllers/orderController.js] ([createOrder],
    [updateOrderStatus]) and of the stock methods of [models/Product.js].

    Conventions of the embedding.
    - A JavaScript number is an exact rational [Q]; the request body is JSON,
      so a numeric field carries a number or is absent ([None]).
    - A string field of the body is [option string]; [None] is [undefined].
    - The database is a pair of finite maps keyed by document id.  A handler
      is a function from the store to a response and the store it leaves;
      an aborted transaction leaves the store it started from.
    - [new Date()], [Date.now()] and [uuidv4()] are read from an [Env].
    - Helpers of [utils/inputSanitizer.js] are parameters of the handlers,
      and so is the set of strings that Mongoose casts to an ObjectId; a
      document is looked up under its id as the driver prints it.
    - E-mail and low-stock notifications are fire-and-forget and do not
      touch the store; the handlers leave them out, and the second part
      lists them apart.

    The second part of the definitions embeds further code around these
    handlers: the slug and the availability of [models/Product.js], the
    error middleware, the reading of orders and the invoice route of the
    order controller, the status route and the validation of sizes of
    [controllers/adminController.js], the maintenance notice of
    [controllers/settingsController.js], the cart and the checkout of the
    client, and the lock on failed logins of
    [controllers/authController.js]. *)

From Stdlib Require Import QArith Qabs Qround Lqa Ascii.
From stdpp Require Import gmap strings list.

Local Open Scope string_scope.

(** ** JavaScript truthiness and [||] *)

Class Truthy (A : Type) := truthy : A -> bool.

#[global] Instance truthy_string : Truthy string :=
  fun s => negb (String.eqb s "").

#[global] Instance truthy_Q : Truthy Q :=
  fun q => negb (Qeq_bool q 0).

#[global] Instance truthy_option {A} `{Truthy A} : Truthy (option A) :=
  fun o => match o with Some a => truthy a | None => false end.

(** [a || b] where [b] is known to be a value of the base type. *)
Definition jsOr {A} `{Truthy A} (a : option A) (b : A) : A :=
  match a with
  | Some x => if truthy x then x else b
  | None => b
  end.

(** [x < y] on numbers. *)
Definition Qltb (x y : Q) : bool := negb (Qle_bool y x).

(** The first digit of a whole number [m] of at least one; [fuel] bounds
    the number of digits. *)
Fixpoint firstDigit (fuel : nat) (m : Z) : Z :=
  match fuel with
  | O => m
  | S fuel' => if (m <? 10)%Z then m else firstDigit fuel' (m / 10)%Z
  end.

(** The first digit that is not zero of [a / b], a number above zero and
    below one; [fuel] bounds the number of zeros before it. *)
Fixpoint firstDecimal (fuel : nat) (a b : Z) : Z :=
  match fuel with
  | O => (a / b)%Z
  | S fuel' => if (b <=? a)%Z then (a / b)%Z else firstDecimal fuel' (10 * a)%Z b
  end.

(** [parseInt(x)] of a number.  The number is printed first and the digits
    before the first character that is no digit are read.  A number of
    absolute value from 0.000001 up to, and not including, 1e21 is printed
    plainly, so that the result is its integer part, truncated toward zero.
    Any other number but zero is printed with an exponent, [d.ddde-7] or
    [d.ddde+21], and the result is its first digit [d], with the sign:
    [parseInt(5e-7)] is 5 and [parseInt(1e21)] is 1. *)
Definition parseInt (x : Q) : Z :=
  let a := Z.abs (Qnum x) in
  let b := Zpos (Qden x) in
  if (a =? 0)%Z then 0%Z
  else if (a * 10 ^ 6 <? b)%Z then
    (Z.sgn (Qnum x) * firstDecimal (Z.to_nat (Z.log2 b) + 1) a b)%Z
  else if (10 ^ 21 * b <=? a)%Z then
    (Z.sgn (Qnum x) * firstDigit (Z.to_nat (Z.log2 a)) (a / b))%Z
  else Z.quot (Qnum x) b.

(** ** Characters and object ids *)

(** Characters are taken by their code; the functions on them are those of
    JavaScript on ASCII text. *)
Definition charCode (c : ascii) : nat := nat_of_ascii c.

Definition between (lo hi : nat) (c : ascii) : bool :=
  (lo <=? charCode c)%nat && (charCode c <=? hi)%nat.

Definition isHexDigit (c : ascii) : bool :=
  between 48 57 c || between 97 102 c || between 65 70 c.

(** [/^[0-9a-fA-F]{24}$/.test(s)] *)
Definition isObjectIdString (s : string) : bool :=
  (String.length s =? 24)%nat
  && forallb isHexDigit (String.list_ascii_of_string s).

(** ** models/Product.js *)

Record SizePrice := {
  sp_size : string;
  sp_price : Q
}.

Record Product := {
  p_name : string;
  p_sizes : list SizePrice;
  (* [product.price], read by createOrder; the schema declares no such path *)
  p_price : option Q;
  (* [images[i].url] *)
  p_images : list string;
  (* [inventory.stock], [inventory.lowStockAlert] *)
  p_stock : Z;
  p_lowStockAlert : Z;
  p_inStock : bool
}.

Definition setStock (p : Product) (stock : Z) (inStock : bool) : Product :=
  {| p_name := p_name p; p_sizes := p_sizes p; p_price := p_price p;
     p_images := p_images p; p_stock := stock;
     p_lowStockAlert := p_lowStockAlert p; p_inStock := inStock |}.

Module ProductModel.

(** Schema validators run by [save()]: [min: 0] on the stock, on the
    low-stock threshold and on every size price. *)
Definition validate (p : Product) : bool :=
  (0 <=? p_stock p)%Z && (0 <=? p_lowStockAlert p)%Z
  && forallb (fun s => Qle_bool 0 (sp_price s)) (p_sizes p).

(** [productSchema.pre('save')]: the slug is not part of the model;
    [this.inStock = this.inventory.stock > 0]. *)
Definition preSave (p : Product) : Product :=
  setStock p (p_stock p) (0 <? p_stock p)%Z.

(** [this.save()]: validation, then the pre-save hook; [None] is a
    rejected save (ValidationError), nothing persisted. *)
Definition save (p : Product) : option Product :=
  if validate p then Some (preSave p) else None.

Inductive outcome :=
| Saved (p : Product)
| Rejected (inMemory : Product)
| Thrown (msg : string).

Definition saving (p : Product) : outcome :=
  match save p with
  | Some p' => Saved p'
  | None => Rejected p
  end.

Definition updateStock (newStock : Z) (p : Product) : outcome :=
  saving (setStock p newStock (0 <? newStock)%Z).

Definition decreaseStock (quantity : Z) (p : Product) : outcome :=
  if (quantity <=? p_stock p)%Z then
    let stock := (p_stock p - quantity)%Z in
    saving (setStock p stock (0 <? stock)%Z)
  else Thrown "Insufficient stock".

Definition increaseStock (quantity : Z) (p : Product) : outcome :=
  saving (setStock p (p_stock p + quantity)%Z true).

End ProductModel.

(** The invariant of the Product aggregate. *)
Definition stockInvariant (p : Product) : Prop :=
  (0 <= p_stock p)%Z /\ p_inStock p = (0 <? p_stock p)%Z.

(** ** Orders *)

Record Address := {
  firstName : option string;
  lastName : option string;
  email : option string;
  phone : option string;
  address : option string;
  city : option string;
  county : option string;
  country : option string;
  postalCode : option string
}.

(** A line of [req.body.items]. *)
Record CartItem := {
  ci_product : option string;
  ci_name : option string;
  ci_price : option Q;
  ci_quantity : option Q;
  ci_size : option string;
  ci_image : option string
}.

(** A line of [order.items]. *)
Record OrderItem := {
  oi_product : string;
  oi_name : string;
  oi_price : Q;
  oi_quantity : Z;
  oi_size : string;
  oi_image : string;
  oi_itemTotal : Q
}.

Record StockUpdate := {
  su_productId : string;
  su_quantity : Z;
  su_currentStock : Z
}.

Record TrackingEntry := {
  te_status : string;
  te_location : option string;
  te_message : string;
  te_timestamp : Z
}.

Record Order := {
  o_orderNumber : string;
  o_user : string;
  o_items : list OrderItem;
  o_shippingAddress : Address;
  o_subtotal : Q;
  o_shippingCost : Q;
  o_tax : Q;
  o_total : Q;
  o_paymentMethod : string;
  o_paymentStatus : string;
  o_status : string;
  o_notes : string;
  o_trackingHistory : list TrackingEntry;
  o_trackingNumber : option string;
  o_adminNotes : option string;
  o_statusUpdatedAt : option Z
}.

(** The two collections the handlers read and write. *)
Record Store := {
  products : gmap string Product;
  orders : gmap string Order
}.

(** [req.user] *)
Record User := {
  u_id : string;
  u_userType : option string;
  u_role : option string
}.

(** [req.body] of POST /api/orders.  [shippingAddress] is [None] when the
    body has no such object; [items] is [None] when it is missing or not an
    array.  The client's [subtotal] and [tax] are never read. *)
Record OrderRequest := {
  shippingAddress : option Address;
  paymentMethod : option string;
  items : option (list CartItem);
  shippingCost : option Q;
  totalAmount : option Q;
  notes : option string
}.

(** What the clock, the uuid generator and the id generator hand out to
    one request. *)
Record Env := {
  env_now : Z;
  (* [Date.now().toString().slice(-8)] *)
  env_timestamp : string;
  (* [uuidv4().split('-')[0].toUpperCase()] *)
  env_uuid : string;
  (* the [_id] the new Order document receives *)
  env_orderId : string
}.

Inductive orderError :=
| AdminForbidden
| ItemsRequired
| AddressPaymentRequired
| EmailPhoneRequired
| InvalidItemData
| ProductNotFound (itemName : string)
| InsufficientStock (productName : string) (available : Z) (requested : Q)
| AmountValidationFailed (clientTotal calculatedTotal : Q)
| ServerError.

Inductive response :=
| Created (o : Order)
| Failed (e : orderError).

(** [res.status(...)] of each exit of createOrder; [ServerError] is the
    answer of the [catch] to a TypeError or a CastError. *)
Definition errorStatus (e : orderError) : Z :=
  match e with
  | AdminForbidden => 403
  | ServerError => 500
  | _ => 400
  end.

Definition statusCode (r : response) : Z :=
  match r with
  | Created _ => 201
  | Failed e => errorStatus e
  end.

(** [product.sizes.find(s => s.size === size)?.price] *)
Definition sizePrice (p : Product) (size : string) : option Q :=
  sp_price <$> List.find (fun s => String.eqb (sp_size s) size) (p_sizes p).

(** [parseFloat(product.sizes.find(...)?.price || product.price || item.price)]
    for an [item.price] that passed the truthiness test. *)
Definition resolvePrice (p : Product) (size : string) (clientPrice : Q) : Q :=
  jsOr (sizePrice p size) (jsOr (p_price p) clientPrice).

(** [!item.product || !item.name || !item.price || !item.quantity || !item.size] *)
Definition itemInvalid (it : CartItem) : bool :=
  negb (truthy (ci_product it)) || negb (truthy (ci_name it))
  || negb (truthy (ci_price it)) || negb (truthy (ci_quantity it))
  || negb (truthy (ci_size it)).

(** The five fields of a line that passes the test above. *)
Definition readItem (it : CartItem) : option (string * string * Q * Q * string) :=
  if itemInvalid it then None
  else
    match ci_product it, ci_name it, ci_price it, ci_quantity it, ci_size it with
    | Some pid, Some nm, Some pr, Some qty, Some sz => Some (pid, nm, pr, qty, sz)
    | _, _, _, _, _ => None
    end.

(** The accumulators of the item loop: [calculatedSubtotal], [orderItems],
    [stockUpdates]. *)
Record Lines := {
  calculatedSubtotal : Q;
  orderItems : list OrderItem;
  stockUpdates : list StockUpdate
}.

Section ItemLoop.

(** The strings Mongoose casts to an ObjectId.  [Product.findById] throws a
    CastError on any other, which the [catch] of the handler answers with
    500.  A product is looked up under the id as the driver prints it. *)
Variable castsToObjectId : string -> bool.

(** The body of the item loop for one line: the structure test, the
    product lookup, the stock test, the price resolution; it yields the
    entry pushed on [orderItems] and the one pushed on [stockUpdates]. *)
Definition processItem (prods : gmap string Product) (it : CartItem)
    : orderError + (OrderItem * StockUpdate) :=
  match readItem it with
  | None => inl InvalidItemData
  | Some (pid, nm, pr, qty, sz) =>
    if negb (castsToObjectId pid) then inl ServerError
    else
    match prods !! pid with
    | None => inl (ProductNotFound nm)
    | Some product =>
      if Qltb (inject_Z (p_stock product)) qty then
        inl (InsufficientStock (p_name product) (p_stock product) qty)
      else
        let itemPrice := resolvePrice product sz pr in
        let itemQuantity := parseInt qty in
        let itemTotal := (itemPrice * inject_Z itemQuantity)%Q in
        inr ({| oi_product := pid; oi_name := nm; oi_price := itemPrice;
                oi_quantity := itemQuantity; oi_size := sz;
                oi_image := jsOr (ci_image it)
                              (jsOr (head (p_images product))
                                    "/default-product.jpg");
                oi_itemTotal := itemTotal |},
             {| su_productId := pid; su_quantity := itemQuantity;
                su_currentStock := p_stock product |})
    end
  end.

(** [for (const item of items) { ... }]: the first failing line ends the
    request; otherwise the line is added to the three accumulators. *)
Fixpoint processItems (prods : gmap string Product) (its : list CartItem)
    (acc : Lines) : orderError + Lines :=
  match its with
  | [] => inr acc
  | it :: rest =>
    match processItem prods it with
    | inl e => inl e
    | inr (oi, su) =>
      processItems prods rest
        {| calculatedSubtotal := (calculatedSubtotal acc + oi_itemTotal oi)%Q;
           orderItems := orderItems acc ++ [oi];
           stockUpdates := stockUpdates acc ++ [su] |}
    end
  end.

End ItemLoop.

(** The accumulators before the loop. *)
Definition noLines : Lines :=
  {| calculatedSubtotal := 0; orderItems := []; stockUpdates := [] |}.

(** [Product.findByIdAndUpdate(id, {$inc: {'inventory.stock': -quantity},
    $set: {inStock: newStock > 0}})]: no validators, no save hook; a
    missing document is left missing. *)
Definition applyStockUpdate (prods : gmap string Product) (u : StockUpdate)
    : gmap string Product :=
  let newStock := (su_currentStock u - su_quantity u)%Z in
  alter (fun p => setStock p (p_stock p + - su_quantity u)%Z (0 <? newStock)%Z)
        (su_productId u) prods.

(** [for (const update of stockUpdates) { ... }] *)
Definition applyStockUpdates (prods : gmap string Product)
    (us : list StockUpdate) : gmap string Product :=
  fold_left applyStockUpdate us prods.

(** [userType === 'admin' || role === 'admin' || role === 'super-admin'] *)
Definition isAdmin (u : User) : bool :=
  match u_userType u with Some t => String.eqb t "admin" | None => false end
  || match u_role u with
     | Some r => String.eqb r "admin" || String.eqb r "super-admin"
     | None => false
     end.

Definition setContact (a : Address) (e p : option string) : Address :=
  {| firstName := firstName a; lastName := lastName a; email := e; phone := p;
     address := address a; city := city a; county := county a;
     country := country a; postalCode := postalCode a |}.

Section OrderController.

(** The strings Mongoose casts to an ObjectId. *)
Variable castsToObjectId : string -> bool.

(** [utils/inputSanitizer.js] *)
Variable sanitizeObject : Address -> Address.
Variable sanitizeEmail : option string -> option string.
Variable sanitizePhone : option string -> option string.
Variable sanitizeAmount : option Q -> Q.

Local Open Scope Q_scope.

(** Lines 49-51: the sanitized copy of the address, with its e-mail
    and phone replaced by the sanitized ones. *)
Definition sanitizeAddress (raw : Address) : Address :=
  setContact (sanitizeObject raw)
             (sanitizeEmail (email raw)) (sanitizePhone (phone raw)).

(** The amounts of lines 152-156. *)
Definition finalSubtotal (l : Lines) : Q :=
  sanitizeAmount (Some (calculatedSubtotal l)).
Definition finalShippingCost (req : OrderRequest) : Q :=
  sanitizeAmount (shippingCost req).
Definition finalTax (l : Lines) : Q :=
  sanitizeAmount (Some (finalSubtotal l * (16 # 100))).
Definition calculatedTotal (req : OrderRequest) (l : Lines) : Q :=
  sanitizeAmount (Some (finalSubtotal l + finalShippingCost req + finalTax l)).
Definition clientTotal (req : OrderRequest) : Q :=
  sanitizeAmount (totalAmount req).

(** [Math.abs(calculatedTotal - clientTotal) > 1.0] *)
Definition amountMismatch (req : OrderRequest) (l : Lines) : bool :=
  Qltb 1 (Qabs (calculatedTotal req l - clientTotal req)).

(** [new Order({...})] *)
Definition newOrder (env : Env) (user : User) (req : OrderRequest)
    (addr : Address) (method : string) (l : Lines) : Order :=
  {| o_orderNumber := "ORD-" ++ env_timestamp env ++ "-" ++ env_uuid env;
     o_user := u_id user;
     o_items := orderItems l;
     o_shippingAddress :=
       {| firstName := firstName addr; lastName := lastName addr;
          email := email addr; phone := phone addr;
          address := address addr; city := city addr; county := county addr;
          country := Some (jsOr (country addr) "Kenya");
          postalCode := Some (jsOr (postalCode addr) "") |};
     o_subtotal := finalSubtotal l;
     o_shippingCost := finalShippingCost req;
     o_tax := finalTax l;
     o_total := calculatedTotal req l;
     o_paymentMethod := method;
     o_paymentStatus := if String.eqb method "cod" then "pending" else "paid";
     o_status := "confirmed";
     o_notes := jsOr (notes req) "";
     o_trackingHistory :=
       [{| te_status := "confirmed"; te_location := None;
           te_message := "Order received and confirmed";
           te_timestamp := env_now env |}];
     o_trackingNumber := None;
     o_adminNotes := None;
     o_statusUpdatedAt := None |}.

(** POST /api/orders.  Every early [return] follows
    [session.abortTransaction()], so it hands back the store unchanged.
    [order.save()] is taken to succeed; the Order schema lies outside this
    development. *)
Definition createOrder (env : Env) (user : User) (req : OrderRequest)
    (st : Store) : response * Store :=
  if isAdmin user then (Failed AdminForbidden, st)
  else
    match shippingAddress req with
    | None => (Failed ServerError, st)   (* TypeError at [shippingAddress.email] *)
    | Some raw =>
      let sanitizedAddress := sanitizeAddress raw in
      match items req with
      | None | Some [] => (Failed ItemsRequired, st)
      | Some its =>
        match paymentMethod req with
        | None => (Failed AddressPaymentRequired, st)
        | Some method =>
          if negb (truthy method) then (Failed AddressPaymentRequired, st)
          else if negb (truthy (email sanitizedAddress))
                  || negb (truthy (phone sanitizedAddress))
          then (Failed EmailPhoneRequired, st)
          else
            match processItems castsToObjectId (products st) its noLines with
            | inl e => (Failed e, st)
            | inr l =>
              if amountMismatch req l then
                (Failed (AmountValidationFailed (clientTotal req)
                                                (calculatedTotal req l)), st)
              else
                let order := newOrder env user req sanitizedAddress method l in
                (Created order,
                 {| products := applyStockUpdates (products st) (stockUpdates l);
                    orders := <[env_orderId env := order]> (orders st) |})
            end
        end
      end
    end.

End OrderController.

(** ** PUT /api/orders/:id/status *)

(** [req.body] *)
Record StatusRequest := {
  status : option string;
  trackingNumber : option string;
  adminNotes : option string;
  location : option string;
  message : option string
}.

Inductive statusError :=
| OrderNotFound
| InvalidTransition (current requested : string)
| TrackingRequired
(* TypeError: allowed.includes is not a function *)
| IncludesNotAFunction.

Inductive statusResponse :=
| Updated (o : Order)
| Refused (e : statusError).

(** The status the handler sets before it throws, which the error
    middleware keeps; it sets none before the TypeError, which the error
    middleware answers with 500. *)
Definition statusErrorCode (e : statusError) : Z :=
  match e with
  | OrderNotFound => 404
  | InvalidTransition _ _ => 400
  | TrackingRequired => 400
  | IncludesNotAFunction => 500
  end.

Definition statusResponseCode (r : statusResponse) : Z :=
  match r with
  | Updated _ => 200
  | Refused e => statusErrorCode e
  end.

(** The object literal [validTransitions], own keys only. *)
Definition validTransitions : list (string * list string) :=
  [ ("pending", ["confirmed"; "cancelled"; "processing"]);
    ("confirmed", ["processing"; "cancelled"; "shipped"]);
    ("processing", ["shipped"; "cancelled"]);
    ("shipped", ["delivered"; "returned"]);
    ("delivered", ["returned"]);
    ("cancelled", []);
    ("returned", []) ].

(** The properties an object literal inherits from [Object.prototype]:
    functions, and for [__proto__] the prototype itself; all of them truthy
    and none of them an array. *)
Definition inheritedKeys : list string :=
  [ "constructor"; "__proto__"; "hasOwnProperty"; "isPrototypeOf";
    "propertyIsEnumerable"; "toLocaleString"; "toString"; "valueOf";
    "__defineGetter__"; "__defineSetter__"; "__lookupGetter__";
    "__lookupSetter__" ].

(** [validTransitions[current] || []]: the list of an own key, an inherited
    property ([None], a value without [includes]), or [[]] for a name the
    object does not know. *)
Definition allowed (current : string) : option (list string) :=
  match List.find (fun kv => String.eqb (fst kv) current) validTransitions with
  | Some kv => Some (snd kv)
  | None =>
    if existsb (String.eqb current) inheritedKeys then None else Some []
  end.

(** [list.includes(s)] *)
Definition includes (l : list string) (s : string) : bool :=
  existsb (String.eqb s) l.

(** [status && order.status !== status]: the transition is looked up. *)
Definition statusChanges (current : string) (target : option string) : bool :=
  match target with
  | Some s => truthy s && negb (String.eqb current s)
  | None => false
  end.

(** The call [allowed.includes(status)] throws a TypeError. *)
Definition includesThrows (current : string) (target : option string) : bool :=
  statusChanges current target
  && match allowed current with Some _ => false | None => true end.

(** [status && order.status !== status && !allowed.includes(status)] *)
Definition transitionRefused (current : string) (target : option string) : bool :=
  match target with
  | Some s =>
    truthy s && negb (String.eqb current s)
    && match allowed current with
       | Some targets => negb (includes targets s)
       | None => false
       end
  | None => false
  end.

(** [status === 'shipped' && !trackingNumber && !order.trackingNumber] *)
Definition trackingMissing (o : Order) (req : StatusRequest) : bool :=
  match status req with
  | Some s => String.eqb s "shipped"
  | None => false
  end
  && negb (truthy (trackingNumber req)) && negb (truthy (o_trackingNumber o)).

(** [if (x) order.field = x] on an optional field. *)
Definition assignIf (x old : option string) : option string :=
  if truthy x then x else old.

(** A template literal prints [undefined] for a missing value. *)
Definition interpolate (x : option string) : string :=
  match x with Some s => s | None => "undefined" end.

(** The entry pushed on [order.trackingHistory]; [newStatus] is
    [order.status] after the assignment of line 577. *)
Definition historyEntry (now : Z) (newStatus : string) (req : StatusRequest)
    : TrackingEntry :=
  {| te_status := jsOr (status req) newStatus;
     te_location := Some (jsOr (location req) "");
     te_message :=
       jsOr (message req)
            ("Order status updated to " ++ interpolate (status req) ++
             (if truthy (trackingNumber req)
              then ". Tracking: " ++ interpolate (trackingNumber req)
              else ""));
     te_timestamp := now |}.

(** Lines 577-588: the field updates and the history push. *)
Definition applyStatus (now : Z) (o : Order) (req : StatusRequest) : Order :=
  let newStatus := jsOr (status req) (o_status o) in
  {| o_orderNumber := o_orderNumber o; o_user := o_user o; o_items := o_items o;
     o_shippingAddress := o_shippingAddress o;
     o_subtotal := o_subtotal o; o_shippingCost := o_shippingCost o;
     o_tax := o_tax o; o_total := o_total o;
     o_paymentMethod := o_paymentMethod o;
     o_paymentStatus := o_paymentStatus o;
     o_status := newStatus;
     o_notes := o_notes o;
     o_trackingHistory := o_trackingHistory o ++ [historyEntry now newStatus req];
     o_trackingNumber := assignIf (trackingNumber req) (o_trackingNumber o);
     o_adminNotes := assignIf (adminNotes req) (o_adminNotes o);
     o_statusUpdatedAt := Some now |}.

(** The handler; [order.save()] writes the document back under its id. *)
Definition updateOrderStatus (now : Z) (id : string) (req : StatusRequest)
    (st : Store) : statusResponse * Store :=
  match orders st !! id with
  | None => (Refused OrderNotFound, st)
  | Some order =>
    if includesThrows (o_status order) (status req) then
      (Refused IncludesNotAFunction, st)
    else if transitionRefused (o_status order) (status req) then
      (Refused (InvalidTransition (o_status order) (interpolate (status req))), st)
    else if trackingMissing order req then (Refused TrackingRequired, st)
    else
      let order' := applyStatus now order req in
      (Updated order',
       {| products := products st; orders := <[id := order']> (orders st) |})
  end.

(** ** Notions used to state the properties *)

(** The sum of [price * quantity] over the lines of an order, added up in
    the order of the lines. *)
Definition lineSum (l : list OrderItem) : Q :=
  fold_left (fun s oi => (s + oi_price oi * inject_Z (oi_quantity oi))%Q) l 0%Q.

(** The price the client submitted for a line, as a number. *)
Definition clientPriceOf (it : CartItem) : Q := default 0%Q (ci_price it).

(** The rule by which the unit price of a line is chosen, in words: the
    price of the size when the product lists the size at a non-zero price;
    otherwise the flat price of the product when it has a non-zero one;
    otherwise the price the client submitted. *)
Inductive priceRule (p : Product) (size : string) (client : Q) : Q -> Prop :=
| price_by_size q :
    sizePrice p size = Some q -> ~ (q == 0)%Q -> priceRule p size client q
| price_flat q :
    truthy (sizePrice p size) = false ->
    p_price p = Some q -> ~ (q == 0)%Q -> priceRule p size client q
| price_client :
    truthy (sizePrice p size) = false -> truthy (p_price p) = false ->
    priceRule p size client client.


(** The permitted transitions as the specification tabulates them. *)
Inductive permitted : string -> string -> Prop :=
| pending_confirmed : permitted "pending" "confirmed"
| pending_processing : permitted "pending" "processing"
| pending_cancelled : permitted "pending" "cancelled"
| confirmed_processing : permitted "confirmed" "processing"
| confirmed_shipped : permitted "confirmed" "shipped"
| confirmed_cancelled : permitted "confirmed" "cancelled"
| processing_shipped : permitted "processing" "shipped"
| processing_cancelled : permitted "processing" "cancelled"
| shipped_delivered : permitted "shipped" "delivered"
| shipped_returned : permitted "shipped" "returned"
| delivered_returned : permitted "delivered" "returned".

(** A sanitizer of amounts that moves a number by at most one hundredth,
    as rounding to two decimals does. *)
Definition sanitizesWithinCent (sanitizeAmount : option Q -> Q) : Prop :=
  forall x : Q, (Qabs (sanitizeAmount (Some x) - x) <= 1 # 100)%Q.

(** ** Sample data *)

Module Sample.

(** A sanitizer that rounds to two decimals, half up, and reads an absent
    amount as zero. *)
Definition roundCents (x : option Q) : Q :=
  match x with
  | Some q => (Qfloor (q * 100 + (1 # 2)) # 100)%Q
  | None => 0%Q
  end.

Definition houseBlend : Product :=
  {| p_name := "House Blend";
     p_sizes := [ {| sp_size := "250g"; sp_price := 500 |};
                  {| sp_size := "500g"; sp_price := 900 |} ];
     p_price := None; p_images := [];
     p_stock := 5; p_lowStockAlert := 2; p_inStock := true |}.

Definition nairobi : Address :=
  {| firstName := Some "Amina"; lastName := Some "Otieno";
     email := Some "amina@example.com"; phone := Some "+254712345678";
     address := Some "12 Riverside"; city := Some "Nairobi";
     county := Some "Nairobi"; country := None; postalCode := None |}.

Definition customer : User :=
  {| u_id := "64b7f0c2a1d3e4f5a6b70001"; u_userType := Some "customer"; u_role := Some "customer" |}.

Definition administrator : User :=
  {| u_id := "64b7f0c2a1d3e4f5a6b70002"; u_userType := Some "admin"; u_role := Some "admin" |}.

Definition env : Env :=
  {| env_now := 1700000012345; env_timestamp := "00012345";
     env_uuid := "9F1C2D3E"; env_orderId := "64b7f0c2a1d3e4f5a6b7c001" |}.

Definition blendId : string := "64b7f0c2a1d3e4f5a6b7a001".

Definition orderId : string := env_orderId env.

Definition shop : Store :=
  {| products := {[ blendId := houseBlend ]}; orders := ∅ |}.

Definition line (price quantity : Q) (size : string) : CartItem :=
  {| ci_product := Some blendId; ci_name := Some "House Blend";
     ci_price := Some price; ci_quantity := Some quantity;
     ci_size := Some size; ci_image := None |}.

Definition cart (its : list CartItem) (total : Q) : OrderRequest :=
  {| shippingAddress := Some nairobi; paymentMethod := Some "cod";
     items := Some its; shippingCost := Some 0%Q; totalAmount := Some total;
     notes := None |}.

(** Two packs at the listed price: 1000 + 16% = 1160. *)
Definition honest : OrderRequest := cart [line 500 2 "250g"] 1160.

(** The client claims a price of 999 and the total that goes with it. *)
Definition tampered : OrderRequest := cart [line 999 2 "250g"] (231768 # 100).

(** A size the product does not list, at a price of the client's choosing. *)
Definition unlisted : OrderRequest := cart [line 1 2 "1000g"] (232 # 100).





(** The same product on two lines, three packs each, with five in stock. *)
Definition twoLines : OrderRequest :=
  cart [line 500 3 "250g"; line 900 3 "500g"] 4872.

Definition place (user : User) (req : OrderRequest) (st : Store)
    : response * Store :=
  createOrder isObjectIdString (fun a => a) (fun e => e) (fun p => p)
    roundCents env user req st.

(** The store after the honest order. *)
Definition shopWithOrder : Store := snd (place customer honest shop).

Definition ship (tracking : option string) : StatusRequest :=
  {| status := Some "shipped"; trackingNumber := tracking;
     adminNotes := None; location := None; message := None |}.

Definition moveTo (target : string) : StatusRequest :=
  {| status := Some target; trackingNumber := None;
     adminNotes := None; location := None; message := None |}.

End Sample.

(** * Further code of the storefront *)

(** ** models/Product.js: availability and the slug of the pre-save hook *)

(** [checkAvailability(quantity = 1)] *)
Definition checkAvailability (quantity : option Z) (p : Product) : bool :=
  p_inStock p && (default 1%Z quantity <=? p_stock p)%Z.

(** The virtual [isLowStock]. *)
Definition isLowStock (p : Product) : bool :=
  (p_stock p <=? p_lowStockAlert p)%Z.

(** One character of [toLowerCase()]. *)
Definition toLower (c : ascii) : ascii :=
  if between 65 90 c then ascii_of_nat (charCode c + 32) else c.

(** The class [[a-z0-9 -]]. *)
Definition slugKept (c : ascii) : bool :=
  between 97 122 c || between 48 57 c
  || (charCode c =? 32)%nat || (charCode c =? 45)%nat.

(** The class [\s] on ASCII: tab, line feed, vertical tab, form feed,
    carriage return, space. *)
Definition isSpace (c : ascii) : bool :=
  between 9 13 c || (charCode c =? 32)%nat.

Definition isDash (c : ascii) : bool := (charCode c =? 45)%nat.

(** [.replace(/X+/g, '-')] for a character class [X]: every maximal run of
    characters of the class becomes one dash; [inRun] tells that the
    previous character belonged to the class. *)
Fixpoint squeeze (X : ascii -> bool) (inRun : bool) (l : list ascii)
    : list ascii :=
  match l with
  | [] => []
  | c :: rest =>
    if X c then
      if inRun then squeeze X true rest
      else "-"%char :: squeeze X true rest
    else c :: squeeze X false rest
  end.

Fixpoint trimStart (l : list ascii) : list ascii :=
  match l with
  | [] => []
  | c :: rest => if isSpace c then trimStart rest else l
  end.

(** [.trim()] *)
Definition trim (l : list ascii) : list ascii :=
  rev (trimStart (rev (trimStart l))).

(** [.toLowerCase().replace(/[^a-z0-9 -]/g, '').replace(/\s+/g, '-')
     .replace(/-+/g, '-')]: the text as the replacements leave it. *)
Definition replaced (l : list ascii) : list ascii :=
  squeeze isDash false
    (squeeze isSpace false
       (filter (fun c => slugKept c = true) (map toLower l))).

(** The same, followed by [.trim()]. *)
Definition slugChars (l : list ascii) : list ascii := trim (replaced l).

Definition baseSlug (s : string) : string :=
  String.string_of_list_ascii (slugChars (String.list_ascii_of_string s)).

(** The part of a product document the slug logic reads:
    [_id], [name], [seo.slug] and [isModified('name')]. *)
Record SlugDoc := {
  sd_id : string;
  sd_name : string;
  sd_slug : option string;
  sd_nameModified : bool
}.

(** [findOne({'seo.slug': slug, _id: {$ne: id}})] over the slugs of the
    stored products, keyed by product id. *)
Definition slugTaken (slugs : gmap string string) (id slug : string) : bool :=
  existsb (fun kv => negb (String.eqb (fst kv) id) && String.eqb (snd kv) slug)
          (map_to_list slugs).

(** The slug half of [productSchema.pre('save')]; [token] is
    [Math.random().toString(36).substring(2, 7)].  It returns the value of
    [seo.slug] after the hook. *)
Definition preSaveSlug (slugs : gmap string string) (token : string)
    (d : SlugDoc) : option string :=
  if sd_nameModified d || negb (truthy (sd_slug d)) then
    let base := baseSlug (jsOr (sd_slug d) (sd_name d)) in
    if negb (truthy (sd_slug d)) || sd_nameModified d then
      if slugTaken slugs (sd_id d) base
      then Some (base ++ "-" ++ token)
      else Some base
    else sd_slug d
  else sd_slug d.

(** ** middleware/errorMiddleware.js *)

(** What the handler reads of a thrown error: [name], [code], [message],
    the keys of [keyPattern] (a first key and the others, as the driver
    reports at least one), the values of [keyValue] as a template literal
    prints them, and the messages of [errors] for a ValidationError. *)
Record JsError := {
  err_name : string;
  err_code : option Z;
  err_message : string;
  err_keyPattern : option (string * list string);
  err_keyValue : option (gmap string string);
  err_messages : list string
}.

(** [new Error(message)] *)
Definition plainError (message : string) : JsError :=
  {| err_name := "Error"; err_code := None; err_message := message;
     err_keyPattern := None; err_keyValue := None; err_messages := [] |}.

(** The double quote. *)
Definition quote : string := String (ascii_of_nat 34) EmptyString.

(** [field.split('.').pop()]: what follows the last dot. *)
Fixpoint lastSegment (acc : string) (s : string) : string :=
  match s with
  | EmptyString => acc
  | String c rest =>
    if Ascii.eqb c "."%char then lastSegment rest rest
    else lastSegment acc rest
  end.

(** [list.join(', ')] *)
Fixpoint joinComma (l : list string) : string :=
  match l with
  | [] => ""
  | [x] => x
  | x :: rest => x ++ ", " ++ joinComma rest
  end.

(** [errorHandler(err, req, res, next)]: the status and the message of the
    answer, from the status the response carries when the error arrives. *)
Definition errorHandler (resStatus : Z) (err : JsError) : Z * string :=
  let statusCode := if (resStatus =? 200)%Z then 500%Z else resStatus in
  let message := err_message err in
  let '(statusCode, message) :=
    if bool_decide (err_code err = Some 11000%Z) then
      let field :=
        match err_keyPattern err with
        | Some (first, _) => first
        | None => "field"
        end in
      let value :=
        match err_keyValue err with
        | Some values => interpolate (values !! field)
        | None => "value"
        end in
      (400%Z,
       "Duplicate value error: A record with this " ++ lastSegment field field
       ++ " (" ++ quote ++ value ++ quote ++ ") already exists.")
    else (statusCode, message) in
  if String.eqb (err_name err) "ValidationError"
  then (400%Z, joinComma (err_messages err))
  else (statusCode, message).

(** [notFound(req, res, next)] hands this to [errorHandler]. *)
Definition notFound (originalUrl : string) : Z * JsError :=
  (404%Z, plainError ("Not Found - " ++ originalUrl)).

#[global] Instance truthy_Z : Truthy Z := fun z => negb (z =? 0)%Z.

(** ** controllers/orderController.js: reading orders *)

(** The answer of a handler that reads: the document(s) sent with 200, or
    a failure with its status and message. *)
Inductive answer (A : Type) :=
| Sent (data : A)
| Failure (status : Z) (message : string).
Arguments Sent {A} data.
Arguments Failure {A} status message.

Definition answerStatus {A} (r : answer A) : Z :=
  match r with
  | Sent _ => 200%Z
  | Failure status _ => status
  end.

(** [req.user.role === 'admin'] *)
Definition hasAdminRole (u : User) : bool :=
  match u_role u with
  | Some r => String.eqb r "admin"
  | None => false
  end.

Section ReadingOrders.

(** [mongoose.Types.ObjectId.isValid]: the strings the driver casts to an
    ObjectId. *)
Variable isValid : string -> bool.

(** The ids of the documents of the User collection; [populate('user')]
    leaves [null] for an id that is not among them. *)
Variable accounts : gset string.

(** The messages of the CastError of an id and of the TypeError of a read
    through [null], as the libraries word them. *)
Variable castMessage : string -> string.
Variable nullReadMessage : string.

(** GET /api/orders/:id.  Reading [order.user._id] of an order whose user
    is gone throws a TypeError, which the handler's own [catch] answers
    with 500. *)
Definition getOrderById (user : User) (id : string) (st : Store)
    : answer Order :=
  if negb (isValid id) then Failure 400 "Invalid order ID format"
  else
    match orders st !! id with
    | None => Failure 404 "Order not found"
    | Some order =>
      if bool_decide (o_user order ∈ accounts) then
        let isOwner := String.eqb (o_user order) (u_id user) in
        let isAdmin := hasAdminRole user in
        if negb isOwner && negb isAdmin
        then Failure 403 "Not authorized to view this order"
        else Sent order
      else Failure 500 "Failed to fetch order"
    end.

(** What GET /api/orders/:id/invoice does before the error middleware: it
    streams the invoice of an order, or throws with the response status it
    has set ([200] when it has set none). *)
Inductive invoiceStep :=
| Streamed (o : Order)
| Threw (resStatus : Z) (err : JsError).

Definition castError (id : string) : JsError :=
  {| err_name := "CastError"; err_code := None;
     err_message := castMessage id;
     err_keyPattern := None; err_keyValue := None; err_messages := [] |}.

Definition typeError : JsError :=
  {| err_name := "TypeError"; err_code := None;
     err_message := nullReadMessage;
     err_keyPattern := None; err_keyValue := None; err_messages := [] |}.

Definition generateOrderInvoiceStep (user : User) (id : string) (st : Store)
    : invoiceStep :=
  if negb (isValid id) then Threw 200 (castError id)
  else
    match orders st !! id with
    | None => Threw 404 (plainError "Order not found")
    | Some order =>
      if bool_decide (o_user order ∈ accounts) then
        if negb (String.eqb (o_user order) (u_id user))
           && negb (hasAdminRole user)
        then Threw 403 (plainError "Not authorized to access this invoice")
        else Streamed order
      else Threw 200 typeError
    end.

(** The handler behind [asyncHandler] and [errorHandler]. *)
Definition generateOrderInvoice (user : User) (id : string) (st : Store)
    : answer Order :=
  match generateOrderInvoiceStep user id st with
  | Streamed o => Sent o
  | Threw resStatus err =>
    let '(status, message) := errorHandler resStatus err in
    Failure status message
  end.

(** [Math.ceil(a / b)] for integers, [b] not zero. *)
Definition ceilDiv (a b : Z) : Z := (- ((- a) / b))%Z.

(** [.skip(skip).limit(limit)] on the documents a query found: the server
    refuses a negative skip; the limit 0 is no limit; the driver sends a
    negative limit as its absolute value, answered in one batch, which is
    taken to hold that many documents. *)
Definition window {A} (skip limit : Z) (docs : list A) : option (list A) :=
  if (skip <? 0)%Z then None
  else
    let rest := drop (Z.to_nat skip) docs in
    Some (if (limit =? 0)%Z then rest
          else take (Z.to_nat (Z.abs limit)) rest).

Record Pagination := {
  pg_page : Z;
  pg_limit : Z;
  pg_total : Z;
  pg_pages : Z
}.

(** [Order.find({ user: userId })], before sorting. *)
Definition ordersOf (userId : string) (st : Store) : list Order :=
  filter (fun o => o_user o = userId) (map_to_list (orders st)).*2.

(** [.sort({ createdAt: -1 })]; the timestamps are kept by the schema. *)
Variable newestFirst : list Order -> list Order.

(** GET /api/orders/my.  [page] and [limit] are [parseInt(req.query.page)]
    and [parseInt(req.query.limit)], [None] for NaN. *)
Definition getUserOrders (user : option User) (page limit : option Z)
    (st : Store) : answer (list Order * Pagination) :=
  match user with
  | None => Failure 401 "Not authorized, user context missing"
  | Some u =>
    if negb (truthy (u_id u))
    then Failure 401 "Not authorized, user context missing"
    else
      let page := jsOr page 1%Z in
      let limit := jsOr limit 10%Z in
      let skip := ((page - 1) * limit)%Z in
      let own := ordersOf (u_id u) st in
      match window skip limit (newestFirst own) with
      | None => Failure 500 "Failed to fetch orders"
      | Some found =>
        let total := Z.of_nat (length own) in
        Sent (found,
              {| pg_page := page; pg_limit := limit; pg_total := total;
                 pg_pages := ceilDiv total limit |})
      end
  end.


End ReadingOrders.

(** ** controllers/adminController.js *)

(** PUT /api/admin/orders/:id/status for a body that carries a status and
    an id the driver casts:
    [findByIdAndUpdate(id, {status, ...(trackingNumber && {trackingNumber}),
    statusUpdatedAt: new Date()})], which runs no validator, then 404 when
    no document was found. *)
Definition adminUpdateOrderStatus (now : Z) (id : string) (status : string)
    (trackingNumber : option string) (st : Store) : statusResponse * Store :=
  match orders st !! id with
  | None => (Refused OrderNotFound, st)
  | Some o =>
    let o' :=
      {| o_orderNumber := o_orderNumber o; o_user := o_user o;
         o_items := o_items o; o_shippingAddress := o_shippingAddress o;
         o_subtotal := o_subtotal o; o_shippingCost := o_shippingCost o;
         o_tax := o_tax o; o_total := o_total o;
         o_paymentMethod := o_paymentMethod o;
         o_paymentStatus := o_paymentStatus o;
         o_status := status;
         o_notes := o_notes o;
         o_trackingHistory := o_trackingHistory o;
         o_trackingNumber := assignIf trackingNumber (o_trackingNumber o);
         o_adminNotes := o_adminNotes o;
         o_statusUpdatedAt := Some now |} in
    (Updated o', {| products := products st; orders := <[id := o']> (orders st) |})
  end.

(** An entry of the [sizes] a product form submits; [rs_price] is
    [parseFloat(size.price)], [None] for NaN. *)
Record RawSize := {
  rs_size : string;
  rs_price : option Q
}.

(** [parsedSizes.map((size, index) => { ... })] of createProduct and
    updateProduct: the validated sizes, or the index and size of the first
    entry whose price is NaN or not above zero, at which the callback
    throws (createProduct prints the index plus one in its message). *)
Fixpoint validateSizes (index : nat) (raw : list RawSize)
    : (nat * string) + list SizePrice :=
  match raw with
  | [] => inr []
  | r :: rest =>
    match rs_price r with
    | None => inl (index, rs_size r)
    | Some price =>
      if Qle_bool price 0 then inl (index, rs_size r)
      else
        match validateSizes (S index) rest with
        | inl bad => inl bad
        | inr sizes => inr ({| sp_size := rs_size r; sp_price := price |} :: sizes)
        end
    end
  end.

(** ** controllers/orderController.js: the low-stock alerts of placement *)

(** The products handed to [sendLowStockAlert] by the update loop of
    createOrder, in order: after each update, the updated product when its
    stock is at or below its threshold. *)
Fixpoint stockUpdateAlerts (prods : gmap string Product)
    (us : list StockUpdate) : list Product :=
  match us with
  | [] => []
  | u :: rest =>
    let prods' := applyStockUpdate prods u in
    match prods' !! su_productId u with
    | Some updatedProduct =>
      if (p_stock updatedProduct <=? p_lowStockAlert updatedProduct)%Z
      then updatedProduct :: stockUpdateAlerts prods' rest
      else stockUpdateAlerts prods' rest
    | None => stockUpdateAlerts prods' rest
    end
  end.

(** ** controllers/settingsController.js: the maintenance notice *)







(** ** The cart of the client (context/AppContext.js) *)

(** What a cart line carries along for display. *)
Record Display := {
  d_category : option string;
  d_roastLevel : option string;
  d_origin : option string;
  d_flavorNotes : list string;
  d_badge : option string
}.

Record CartLine := {
  cl_id : string;
  cl_productId : string;
  cl_name : option string;
  cl_price : Q;
  cl_quantity : Q;
  cl_size : string;
  cl_itemTotal : Q;
  (* the [url] of each image *)
  cl_images : list string;
  cl_display : Display
}.

(** The product handed to [addToCart]. *)
Record CatalogProduct := {
  cp_id : option string;
  cp_name : option string;
  cp_price : option Q;
  cp_size : option string;
  cp_selectedSize : option string;
  cp_sizes : option (list SizePrice);
  cp_images : option (list string);
  cp_display : Display
}.

(** [a <= 0] on numbers. *)
Definition Qleb (x y : Q) : bool := Qle_bool x y.

(** The first half of [addToCart]: the id, the unit price and the size of
    the line to add, or [None] when the product is turned away. *)
Definition resolveLine (product : CatalogProduct) (selectedSize : option string)
    : option (string * Q * string) :=
  match cp_id product with
  | None => None
  | Some productId =>
    if negb (truthy productId) then None
    else if negb (isObjectIdString productId) then None
    else
      let finalSize :=
        jsOr selectedSize
             (jsOr (cp_size product) (jsOr (cp_selectedSize product) "250g")) in
      let '(itemPrice, finalSize) :=
        match cp_sizes product with
        | Some (first :: others) =>
          match List.find (fun size => String.eqb (sp_size size) finalSize)
                          (first :: others) with
          | Some selectedSizeData => (Some (sp_price selectedSizeData), finalSize)
          | None => (Some (sp_price first), sp_size first)
          end
        | _ => (cp_price product, finalSize)
        end in
      let itemPrice :=
        match itemPrice with
        | Some price =>
          if negb (truthy price) || Qleb price 0 then 1000%Q else price
        | None => 1000%Q
        end in
      Some (productId, itemPrice, finalSize)
  end.

(** [item._id === productId && item.size === size] *)
Definition sameLine (productId size : string) (item : CartLine) : bool :=
  String.eqb (cl_id item) productId && String.eqb (cl_size item) size.

(** [list.findIndex(f)], [None] for -1. *)
Fixpoint findIndex {A} (f : A -> bool) (l : list A) : option nat :=
  match l with
  | [] => None
  | x :: rest => if f x then Some O else S <$> findIndex f rest
  end.

Definition addQuantity (quantity : Q) (item : CartLine) : CartLine :=
  {| cl_id := cl_id item; cl_productId := cl_productId item;
     cl_name := cl_name item; cl_price := cl_price item;
     cl_quantity := (cl_quantity item + quantity)%Q;
     cl_size := cl_size item;
     cl_itemTotal := ((cl_quantity item + quantity) * cl_price item)%Q;
     cl_images := cl_images item; cl_display := cl_display item |}.

(** The state update of [addToCart(product, quantity = 1, selectedSize =
    null)]. *)
Definition addToCart (product : CatalogProduct) (quantity : option Q)
    (selectedSize : option string) (prevCart : list CartLine)
    : list CartLine :=
  let quantity := default 1%Q quantity in
  match resolveLine product selectedSize with
  | None => prevCart
  | Some (productId, itemPrice, finalSize) =>
    match findIndex (sameLine productId finalSize) prevCart with
    | Some existingItemIndex =>
      imap (fun index item =>
              if (index =? existingItemIndex)%nat
              then addQuantity quantity item else item)
           prevCart
    | None =>
      (prevCart ++
       [{| cl_id := productId; cl_productId := productId;
           cl_name := cp_name product; cl_price := itemPrice;
           cl_quantity := quantity; cl_size := finalSize;
           cl_itemTotal := (itemPrice * quantity)%Q;
           cl_images := default [] (cp_images product);
           cl_display := cp_display product |}])%list
    end
  end.

(** The state update of [removeFromCart(productId, size = null)]. *)
Definition removeFromCart (productId : string) (size : option string)
    (prevCart : list CartLine) : list CartLine :=
  List.filter
    (fun item =>
       match size with
       | Some s =>
         if truthy s then negb (sameLine productId s item)
         else negb (String.eqb (cl_id item) productId)
       | None => negb (String.eqb (cl_id item) productId)
       end)
    prevCart.

Definition setQuantity (quantity : Q) (item : CartLine) : CartLine :=
  {| cl_id := cl_id item; cl_productId := cl_productId item;
     cl_name := cl_name item; cl_price := cl_price item;
     cl_quantity := quantity; cl_size := cl_size item;
     cl_itemTotal := cl_itemTotal item;
     cl_images := cl_images item; cl_display := cl_display item |}.

(** The state update of [updateCartQuantity(productId, quantity, size =
    null)]. *)
Definition updateCartQuantity (productId : string) (quantity : Q)
    (size : option string) (prevCart : list CartLine) : list CartLine :=
  if Qleb quantity 0 then removeFromCart productId size prevCart
  else
    map (fun item =>
           let hit :=
             match size with
             | Some s =>
               if truthy s then sameLine productId s item
               else String.eqb (cl_id item) productId
             | None => String.eqb (cl_id item) productId
             end in
           if hit then setQuantity quantity item else item)
        prevCart.

(** [cart.reduce((total, item) => total + (item.price * item.quantity), 0)] *)
Definition getCartTotal (cart : list CartLine) : Q :=
  fold_left (fun total item => (total + cl_price item * cl_quantity item)%Q)
            cart 0%Q.

(** [cart.reduce((count, item) => count + item.quantity, 0)] *)
Definition getCartItemCount (cart : list CartLine) : Q :=
  fold_left (fun count item => (count + cl_quantity item)%Q) cart 0%Q.

(** ** Checkout (components/Checkout/Checkout.jsx) *)

Inductive cartError :=
| EmptyCart
| InvalidProduct (name : option string)
| InvalidProductId (name : option string)
| InvalidQuantity (name : option string)
| InvalidPrice (name : option string)
| SizeRequired (name : option string).

(** [item.productId || item._id] *)
Definition lineProductId (item : CartLine) : string :=
  if truthy (cl_productId item) then cl_productId item else cl_id item.

(** The checks of [validateCartItems] on one line, in order. *)
Definition validateLine (item : CartLine) : option cartError :=
  let productId := lineProductId item in
  if negb (truthy productId) || negb (isObjectIdString productId)
  then Some (InvalidProduct (cl_name item))
  else if negb (truthy (cl_quantity item)) || Qltb (cl_quantity item) 1
  then Some (InvalidQuantity (cl_name item))
  else if negb (truthy (cl_price item)) || Qltb (cl_price item) 0
  then Some (InvalidPrice (cl_name item))
  else if negb (truthy (cl_size item))
  then Some (SizeRequired (cl_name item))
  else None.

Fixpoint validateLines (cart : list CartLine) : option cartError :=
  match cart with
  | [] => None
  | item :: rest =>
    match validateLine item with
    | Some e => Some e
    | None => validateLines rest
    end
  end.

(** [validateCartItems()]: the error it throws, if any. *)
Definition validateCartItems (cart : list CartLine) : option cartError :=
  match cart with
  | [] => Some EmptyCart
  | _ => validateLines cart
  end.

(** [prepareCartItems()]: the [items] of the request, or the error thrown
    at the first line whose product id fails the pattern. *)
Fixpoint prepareCartItems (cart : list CartLine) : cartError + list CartItem :=
  match cart with
  | [] => inr []
  | item :: rest =>
    let productId := lineProductId item in
    if negb (isObjectIdString productId)
    then inl (InvalidProductId (cl_name item))
    else
      match prepareCartItems rest with
      | inl e => inl e
      | inr its =>
        inr ({| ci_product := Some productId; ci_name := cl_name item;
                ci_price := Some (cl_price item);
                ci_quantity := Some (cl_quantity item);
                ci_size := Some (cl_size item);
                ci_image := Some (jsOr (head (cl_images item))
                                       "/default-product.jpg") |} :: its)
      end
  end.

(** The totals of the checkout page. *)
Definition checkoutSubtotal (cart : list CartLine) : Q := getCartTotal cart.
Definition checkoutTax (cart : list CartLine) : Q :=
  (checkoutSubtotal cart * (16 # 100))%Q.
Definition checkoutTotal (cart : list CartLine) (shippingCost : Q) : Q :=
  (checkoutSubtotal cart + shippingCost + checkoutTax cart)%Q.

(** [orderData] of [processOrder], for the fields the server reads. *)
Definition orderData (cart : list CartLine) (its : list CartItem)
    (shippingInfo : Address) (method : string) (shippingCost : Q)
    : OrderRequest :=
  {| shippingAddress := Some shippingInfo;
     paymentMethod := Some method;
     items := Some its;
     shippingCost := Some shippingCost;
     totalAmount := Some (checkoutTotal cart shippingCost);
     notes := Some "" |}.

(** ** controllers/authController.js: the lock on failed logins *)

(** What the two login handlers read and write of a user document for the
    lock: the roles, [loginAttempts], [lockUntil] (in milliseconds),
    [twoFactorEnabled], [isVerified], [isActive]. *)
Record Account := {
  acc_user : User;
  acc_loginAttempts : option Z;
  acc_lockUntil : option Z;
  acc_twoFactorEnabled : bool;
  acc_isVerified : bool;
  acc_isActive : option bool
}.

Definition setLock (a : Account) (attempts lockUntil : option Z) : Account :=
  {| acc_user := acc_user a; acc_loginAttempts := attempts;
     acc_lockUntil := lockUntil;
     acc_twoFactorEnabled := acc_twoFactorEnabled a;
     acc_isVerified := acc_isVerified a; acc_isActive := acc_isActive a |}.

Inductive loginAnswer :=
| LoggedIn
| TwoFactorChallenge
| LoginRefused (status : Z).

(** [user.lockUntil && user.lockUntil > Date.now()] *)
Definition isLocked (now : Z) (a : Account) : bool :=
  match acc_lockUntil a with
  | Some lockUntil => (now <? lockUntil)%Z
  | None => false
  end.

(** Two hours, in milliseconds. *)
Definition lockTime : Z := (2 * 60 * 60 * 1000)%Z.

(** [user.loginAttempts > 0 || user.lockUntil], then the reset. *)
Definition resetLock (a : Account) : Account :=
  if match acc_loginAttempts a with Some n => (0 <? n)%Z | None => false end
     || match acc_lockUntil a with Some _ => true | None => false end
  then setLock a (Some 0%Z) None
  else a.

(** POST /api/auth/login as far as the lock goes.  [now] is the reading of
    the clock, [passwordMatches] the verdict of [bcrypt.compare],
    [mailSent] whether the e-mail of the second factor went out;
    [account] is the user found under the e-mail. *)
Definition loginCustomer (now : Z) (passwordMatches mailSent : bool)
    (account : option Account) : loginAnswer * option Account :=
  match account with
  | None => (LoginRefused 401, None)
  | Some user =>
    if isAdmin (acc_user user) then (LoginRefused 403, Some user)
    else if isLocked now user then (LoginRefused 423, Some user)
    else if negb passwordMatches then
      let attempts :=
        match acc_loginAttempts user with
        | Some n => (n + 1)%Z
        | None => 1%Z
        end in
      let updatedUser := setLock user (Some attempts) (acc_lockUntil user) in
      if (5 <=? attempts + 1)%Z then
        (LoginRefused 423,
         Some (setLock updatedUser (Some attempts) (Some (now + lockTime)%Z)))
      else (LoginRefused 401, Some updatedUser)
    else if acc_twoFactorEnabled user then
      if mailSent then (TwoFactorChallenge, Some user)
      else (LoginRefused 500, Some user)
    else
      let user := resetLock user in
      if negb (acc_isVerified user) then (LoginRefused 403, Some user)
      else (LoggedIn, Some user)
  end.

(** POST /api/auth/admin/login as far as the lock goes; the query asks for
    [userType: 'admin']. *)
Definition loginAdmin (now : Z) (passwordMatches : bool)
    (account : option Account) : loginAnswer * option Account :=
  match account with
  | None => (LoginRefused 401, None)
  | Some user =>
    if negb (bool_decide (u_userType (acc_user user) = Some "admin"))
    then (LoginRefused 401, Some user)
    else if isLocked now user then (LoginRefused 423, Some user)
    else if bool_decide (acc_isActive user = Some false)
    then (LoginRefused 401, Some user)
    else if negb passwordMatches then
      let attempts := (jsOr (acc_loginAttempts user) 0 + 1)%Z in
      let updatedUser := setLock user (Some attempts) (acc_lockUntil user) in
      if (5 <=? attempts)%Z then
        (LoginRefused 423,
         Some (setLock updatedUser (Some attempts) (Some (now + lockTime)%Z)))
      else (LoginRefused 401, Some updatedUser)
    else
      let user := resetLock user in
      if negb (acc_isVerified user) then (LoginRefused 403, Some user)
      else (LoggedIn, Some user)
  end.

(** ** Notions used to state the further properties *)

(** A character a slug is made of: a lower-case letter, a digit or a dash. *)
Definition slugOut (c : ascii) : bool :=
  between 97 122 c || between 48 57 c || isDash c.

(** No two dashes in a row. *)
Fixpoint noDoubleDash (l : list ascii) : bool :=
  match l with
  | c :: rest =>
    match rest with
    | d :: _ => negb (isDash c && isDash d) && noDoubleDash rest
    | [] => true
    end
  | [] => true
  end.


(** The quantity of a product over the lines of an order. *)
Definition orderedQuantity (pid : string) (lines : list OrderItem) : Z :=
  foldr (fun oi acc =>
           if String.eqb (oi_product oi) pid then (oi_quantity oi + acc)%Z
           else acc) 0%Z lines.

(** The quantity of a product over a list of stock updates. *)
Definition updatedQuantity (pid : string) (us : list StockUpdate) : Z :=
  foldr (fun u acc =>
           if String.eqb (su_productId u) pid then (su_quantity u + acc)%Z
           else acc) 0%Z us.

(** A submitted size and the size stored for it. *)
Definition sizeAccepted (r : RawSize) (s : SizePrice) : Prop :=
  sp_size s = rs_size r /\ rs_price r = Some (sp_price s) /\ (0 < sp_price s)%Q.

(** A submitted size whose price is NaN or not above zero. *)
Definition sizeRefused (r : RawSize) : Prop :=
  rs_price r = None \/ exists q, rs_price r = Some q /\ (q <= 0)%Q.

(** What identifies a line of the cart: the product and the size. *)
Definition lineKey (item : CartLine) : string * string :=
  (cl_id item, cl_size item).

(** [Number.MAX_SAFE_INTEGER]: up to it a number holds every whole number
    exactly. *)
Definition maxSafeInteger : Z := 9007199254740991%Z.

(** A line of the cart that shows what the store lists: the product is in
    the store, the size is listed at a non-zero price, the line carries
    that price and a whole quantity within the safe integers. *)
Definition listedLine (prods : gmap string Product) (line : CartLine) : Prop :=
  exists p listed n,
    prods !! lineProductId line = Some p /\
    sizePrice p (cl_size line) = Some listed /\ ~ (listed == 0)%Q /\
    (cl_price line == listed)%Q /\ (cl_quantity line == inject_Z n)%Q /\
    (Z.abs n <= maxSafeInteger)%Z.

(** The number of failures an account counts. *)
Definition failures (a : Account) : Z := default 0%Z (acc_loginAttempts a).

(** ** Further sample data *)

Module Demo.

(** The slugs of the stored products, by product id. *)
Definition slugs : gmap string string :=
  {[ Sample.blendId := "house-blend";
     "64b7f0c2a1d3e4f5a6b7a002" := "kenya-aa" ]}.

(** The house blend, renamed, with the slug it had. *)
Definition renamed : SlugDoc :=
  {| sd_id := Sample.blendId; sd_name := "House Blend Dark";
     sd_slug := Some "house-blend"; sd_nameModified := true |}.

(** The accounts of the shop. *)
Definition accounts : gset string :=
  {[ u_id Sample.customer; u_id Sample.administrator ]}.

(** Three packs of the house blend leave the shelf. *)
Definition threePacks : StockUpdate :=
  {| su_productId := Sample.blendId; su_quantity := 3; su_currentStock := 5 |}.

(** The sizes a product form submits. *)
Definition formSizes : list RawSize :=
  [ {| rs_size := "250g"; rs_price := Some 500%Q |};
    {| rs_size := "500g"; rs_price := Some 900%Q |} ].

Definition noDisplay : Display :=
  {| d_category := Some "coffee-beans"; d_roastLevel := Some "medium";
     d_origin := None; d_flavorNotes := []; d_badge := None |}.

(** The house blend as the catalogue hands it to the cart. *)
Definition catalogBlend : CatalogProduct :=
  {| cp_id := Some Sample.blendId; cp_name := Some "House Blend";
     cp_price := None; cp_size := None; cp_selectedSize := None;
     cp_sizes := Some (p_sizes Sample.houseBlend);
     cp_images := Some ["/images/house-blend.jpg"];
     cp_display := noDisplay |}.

(** Two packs of 250g in the cart. *)
Definition twoPacks : CartLine :=
  {| cl_id := Sample.blendId; cl_productId := Sample.blendId;
     cl_name := Some "House Blend"; cl_price := 500; cl_quantity := 2;
     cl_size := "250g"; cl_itemTotal := 1000;
     cl_images := ["/images/house-blend.jpg"]; cl_display := noDisplay |}.

(** A customer account after three failed logins, and an administrator's
    after four. *)
Definition shopper : Account :=
  {| acc_user := Sample.customer; acc_loginAttempts := Some 3%Z;
     acc_lockUntil := None; acc_twoFactorEnabled := false;
     acc_isVerified := true; acc_isActive := Some true |}.

Definition manager : Account :=
  {| acc_user := Sample.administrator; acc_loginAttempts := Some 4%Z;
     acc_lockUntil := None; acc_twoFactorEnabled := false;
     acc_isVerified := true; acc_isActive := Some true |}.

(** The shopper's account, locked until two hours past the sample clock. *)
Definition lockedShopper : Account :=
  setLock shopper (Some 4%Z) (Some (1700000012345 + lockTime)%Z).





(** Nine ten-millionths of a pack of the house blend, which [parseInt]
    reads as nine packs. *)
Definition tinyQuantity : OrderRequest :=
  Sample.cart [Sample.line 500 (9 # 10000000) "250g"] 5220.

(** The store after the admin route has written the status 'constructor'
    on the sample order. *)
Definition mislabelled : Store :=
  snd (adminUpdateOrderStatus 1700000050000 Sample.orderId "constructor" None
         Sample.shopWithOrder).

End Demo.

(** * Properties *)

(** Case analysis on every comparison of strings in sight. *)
Ltac string_cases :=
  repeat match goal with
         | H : context [String.eqb ?a ?b] |- _ =>
           destruct (String.eqb_spec a b); subst;
           cbn [List.find existsb fst snd orb] in H
         | |- context [String.eqb ?a ?b] =>
           destruct (String.eqb_spec a b); subst;
           cbn [List.find existsb fst snd orb]
         end.

(** ** Truthiness and comparisons *)

Lemma truthy_string_true (s : string) : truthy s = true <-> s <> "".
Proof.
  unfold truthy, truthy_string. rewrite negb_true_iff.
  split.
  - intros H ->. discriminate.
  - intros H. apply String.eqb_neq. exact H.
Qed.

Lemma truthy_Q_true (q : Q) : truthy q = true <-> ~ (q == 0)%Q.
Proof.
  unfold truthy, truthy_Q. rewrite negb_true_iff.
  split.
  - intros H E. apply Qeq_bool_iff in E. congruence.
  - intros H. destruct (Qeq_bool q 0) eqn:E; [|reflexivity].
    apply Qeq_bool_iff in E. contradiction.
Qed.

Lemma truthy_option_Some {A} `{Truthy A} (a : A) : truthy (Some a) = truthy a.
Proof. reflexivity. Qed.

Lemma truthy_option_None {A} `{Truthy A} : truthy (@None A) = false.
Proof. reflexivity. Qed.

Lemma truthy_Some {A} `{Truthy A} (o : option A) :
  truthy o = true <-> exists a, o = Some a /\ truthy a = true.
Proof.
  destruct o as [a|]; simpl.
  - split; [eauto | intros (a' & [= <-] & Ha); exact Ha].
  - split; [discriminate | intros (a' & [=] & _)].
Qed.

Lemma Qltb_true (x y : Q) : Qltb x y = true <-> (x < y)%Q.
Proof.
  unfold Qltb. rewrite negb_true_iff. split.
  - intros H. apply Qnot_le_lt. intros Hle.
    apply Qle_bool_iff in Hle. congruence.
  - intros H. destruct (Qle_bool y x) eqn:E; [|reflexivity].
    apply Qle_bool_iff in E. exfalso. apply (Qlt_not_le _ _ H E).
Qed.

Lemma Qltb_false (x y : Q) : Qltb x y = false <-> (y <= x)%Q.
Proof.
  unfold Qltb. rewrite negb_false_iff. apply Qle_bool_iff.
Qed.

(** ** The item loop *)


Lemma readItem_Some (it : CartItem) pid nm pr qty sz :
  readItem it = Some (pid, nm, pr, qty, sz) <->
  ci_product it = Some pid /\ ci_name it = Some nm /\ ci_price it = Some pr /\
  ci_quantity it = Some qty /\ ci_size it = Some sz /\
  pid <> "" /\ nm <> "" /\ ~ (pr == 0)%Q /\ ~ (qty == 0)%Q /\ sz <> "".
Proof.
  rewrite <- !truthy_string_true, <- !truthy_Q_true.
  unfold readItem, itemInvalid.
  destruct (ci_product it) as [a|], (ci_name it) as [b|], (ci_price it) as [c|],
    (ci_quantity it) as [d|], (ci_size it) as [e|];
    rewrite ?truthy_option_Some, ?truthy_option_None;
    try (rewrite ?orb_true_r; simpl; split;
         [discriminate | intros H; decompose [and] H; discriminate]).
  destruct (truthy a) eqn:Ea, (truthy b) eqn:Eb, (truthy c) eqn:Ec,
    (truthy d) eqn:Ed, (truthy e) eqn:Ee; simpl;
    try (split;
         [ discriminate
         | intros (H1 & H2 & H3 & H4 & H5 & T1 & T2 & T3 & T4 & T5);
           congruence ]).
  split.
  - intros H. inversion H; subst. repeat split; auto.
  - intros (H1 & H2 & H3 & H4 & H5 & _). congruence.
Qed.

Section ItemLoopFacts.

Variable castsToObjectId : string -> bool.

(** Every exit of the loop body answers 400, but for the CastError of a
    malformed product id. *)
Lemma processItem_error_status prods it e :
  processItem castsToObjectId prods it = inl e ->
  e = ServerError \/ errorStatus e = 400%Z.
Proof.
  unfold processItem.
  destruct (readItem it) as [[[[[pid nm] pr] qty] sz]|];
    [|intros [= <-]; right; reflexivity].
  destruct (castsToObjectId pid); cbn [negb]; [|intros [= <-]; left; reflexivity].
  destruct (prods !! pid) as [product|]; [|intros [= <-]; right; reflexivity].
  destruct (Qltb _ _); [intros [= <-]; right; reflexivity | discriminate].
Qed.


Lemma processItems_error_status prods its acc e :
  processItems castsToObjectId prods its acc = inl e ->
  e = ServerError \/ errorStatus e = 400%Z.
Proof.
  revert acc. induction its as [|it rest IH]; intros acc; simpl; [discriminate|].
  destruct (processItem castsToObjectId prods it) as [e'|[oi su]] eqn:E.
  - intros [= <-]. eapply processItem_error_status; eassumption.
  - apply IH.
Qed.



(** What a completed loop leaves in the accumulators. *)
Lemma processItems_done prods its acc l :
  processItems castsToObjectId prods its acc = inr l ->
  exists lines : list (OrderItem * StockUpdate),
    Forall2 (fun it x => processItem castsToObjectId prods it = inr x) its lines /\
    orderItems l = (orderItems acc ++ lines.*1)%list /\
    stockUpdates l = (stockUpdates acc ++ lines.*2)%list /\
    calculatedSubtotal l =
      fold_left (fun s oi => (s + oi_itemTotal oi)%Q) lines.*1
                (calculatedSubtotal acc).
Proof.
  revert acc. induction its as [|it rest IH]; intros acc; simpl.
  - intros [= <-]. exists []. simpl. rewrite !app_nil_r. auto.
  - destruct (processItem castsToObjectId prods it) as [e'|[oi su]] eqn:E; [discriminate|].
    intros H. apply IH in H as (lines & HF & Ho & Hs & Hc). simpl in *.
    exists ((oi, su) :: lines). simpl.
    rewrite <- !app_assoc in *. simpl in *. auto.
Qed.


End ItemLoopFacts.

(** ** createOrder *)

Section CreateOrderFacts.

Variable castsToObjectId : string -> bool.
Variable sanitizeObject : Address -> Address.
Variable sanitizeEmail : option string -> option string.
Variable sanitizePhone : option string -> option string.
Variable sanitizeAmount : option Q -> Q.

Abbreviation create :=
  (createOrder castsToObjectId sanitizeObject sanitizeEmail sanitizePhone
     sanitizeAmount).
Abbreviation contact :=
  (sanitizeAddress sanitizeObject sanitizeEmail sanitizePhone).

(** A request that fails leaves both collections as they were. *)
Lemma createOrder_failure_keeps_store env user req st e :
  fst (create env user req st) = Failed e ->
  snd (create env user req st) = st.
Proof.
  unfold createOrder. repeat case_match; simpl; try reflexivity; discriminate.
Qed.

(** What a successful request went through. *)
Lemma createOrder_created env user req st o :
  fst (create env user req st) = Created o ->
  exists raw its method l,
    isAdmin user = false /\ shippingAddress req = Some raw /\
    items req = Some its /\ paymentMethod req = Some method /\
    processItems castsToObjectId (products st) its noLines = inr l /\
    amountMismatch sanitizeAmount req l = false /\
    o = newOrder sanitizeAmount env user req (contact raw) method l /\
    snd (create env user req st) =
      {| products := applyStockUpdates (products st) (stockUpdates l);
         orders := <[env_orderId env := o]> (orders st) |}.
Proof.
  unfold createOrder. repeat case_match; simpl; try discriminate.
  intros [= <-]. subst. do 4 eexists. repeat split; eauto.
Qed.

(** The actor check comes first, the address next. *)
Lemma createOrder_gate env user req st :
  (isAdmin user = true ->
   create env user req st = (Failed AdminForbidden, st)) /\
  (isAdmin user = false -> shippingAddress req = None ->
   create env user req st = (Failed ServerError, st)).
Proof.
  unfold createOrder. split.
  - intros ->. reflexivity.
  - intros -> ->. reflexivity.
Qed.


(** Past the actor check and the header checks the outcome is decided by
    the loop and the amount comparison. *)
Lemma createOrder_past_header env user req st raw its :
  isAdmin user = false -> shippingAddress req = Some raw ->
  items req = Some its -> its <> [] ->
  truthy (paymentMethod req) = true ->
  truthy (email (contact raw)) = true ->
  truthy (phone (contact raw)) = true ->
  create env user req st =
    match processItems castsToObjectId (products st) its noLines with
    | inl e => (Failed e, st)
    | inr l =>
      if amountMismatch sanitizeAmount req l then
        (Failed (AmountValidationFailed (clientTotal sanitizeAmount req)
                   (calculatedTotal sanitizeAmount req l)), st)
      else
        let order :=
          newOrder sanitizeAmount env user req (contact raw)
                   (default "" (paymentMethod req)) l in
        (Created order,
         {| products := applyStockUpdates (products st) (stockUpdates l);
            orders := <[env_orderId env := order]> (orders st) |})
    end.
Proof.
  intros Ha Hs Hi Hne Hp He Hph. unfold createOrder. rewrite Ha, Hs, Hi.
  destruct its as [|it rest]; [congruence|].
  destruct (paymentMethod req) as [m|]; [|discriminate].
  rewrite truthy_option_Some in Hp. rewrite Hp, He, Hph. reflexivity.
Qed.

(** C1 (amended): when the total recomputed by the server and the total
    submitted by the client, both as [sanitizeAmount] returns them, differ
    by more than 1.0, the request fails and the store is left as it was: no
    order is persisted and no product's stock is changed.  The answer is
    400 for the request of a customer that carries an address, and it is
    the amount-validation failure itself once the header checks have
    passed; an administrator is answered 403 by the actor check. *)
Theorem createOrder_rejects_amount_mismatch env user req st its l :
  items req = Some its ->
  processItems castsToObjectId (products st) its noLines = inr l ->
  (1 < Qabs (calculatedTotal sanitizeAmount req l
             - clientTotal sanitizeAmount req))%Q ->
  (exists e, fst (create env user req st) = Failed e) /\
  snd (create env user req st) = st /\
  (forall raw,
     isAdmin user = false -> shippingAddress req = Some raw ->
     statusCode (fst (create env user req st)) = 400%Z /\
     (its <> [] ->
      truthy (paymentMethod req) = true ->
      truthy (email (contact raw)) = true ->
      truthy (phone (contact raw)) = true ->
      fst (create env user req st) =
        Failed (AmountValidationFailed (clientTotal sanitizeAmount req)
                  (calculatedTotal sanitizeAmount req l)))) /\
  (isAdmin user = true ->
   statusCode (fst (create env user req st)) = 403%Z).
Proof.
  intros Hi Hl Hgt.
  assert (Hm : amountMismatch sanitizeAmount req l = true)
    by (apply Qltb_true; exact Hgt).
  assert (Hfail : exists e, fst (create env user req st) = Failed e).
  { destruct (fst (create env user req st)) as [o|e] eqn:E; [|eauto].
    apply createOrder_created in E
      as (raw & its' & method & l' & _ & _ & Hi' & _ & Hl' & Hm' & _).
    rewrite Hi in Hi'. injection Hi' as <-.
    rewrite Hl in Hl'. injection Hl' as <-. congruence. }
  split; [exact Hfail|]. split; [|split].
  - destruct Hfail as [e He].
    eapply createOrder_failure_keeps_store; eauto.
  - intros raw Ha Hs. split.
    + unfold createOrder. rewrite Ha, Hs, Hi.
      destruct its as [|it rest]; [reflexivity|].
      rewrite Hl, Hm. repeat case_match; reflexivity.
    + intros Hne Hp He Hph.
      rewrite (createOrder_past_header env user req st raw its); auto.
      rewrite Hl, Hm. reflexivity.
  - intros Ha. destruct (createOrder_gate env user req st) as [Hgate _].
    rewrite (Hgate Ha). reflexivity.
Qed.




(** C7: the order a successful request persists has status 'confirmed',
    payment status 'pending' for the method 'cod' and 'paid' for any other,
    and a tracking history that consists of the single entry with status
    'confirmed' and message 'Order received and confirmed'. *)
Theorem createOrder_initial_state env user req st o :
  fst (create env user req st) = Created o ->
  orders (snd (create env user req st)) !! env_orderId env = Some o /\
  o_status o = "confirmed" /\
  (paymentMethod req = Some "cod" -> o_paymentStatus o = "pending") /\
  (paymentMethod req <> Some "cod" -> o_paymentStatus o = "paid") /\
  o_trackingHistory o =
    [ {| te_status := "confirmed"; te_location := None;
         te_message := "Order received and confirmed";
         te_timestamp := env_now env |} ].
Proof.
  intros H.
  apply createOrder_created in H
    as (raw & its & method & l & _ & _ & _ & Hm & _ & _ & -> & ->).
  simpl. split; [apply lookup_insert_eq|].
  split; [reflexivity|]. rewrite Hm. repeat split.
  - intros [= ->]. reflexivity.
  - intros Hne. destruct (String.eqb method "cod") eqn:E; [|reflexivity].
    apply String.eqb_eq in E. congruence.
Qed.

(** The chosen price obeys the rule. *)
Lemma resolvePrice_rule p size client :
  priceRule p size client (resolvePrice p size client).
Proof.
  assert (Hflat : truthy (sizePrice p size) = false ->
                  priceRule p size client (jsOr (p_price p) client)).
  { intros Hs. unfold jsOr. destruct (p_price p) as [f|] eqn:Ef.
    - destruct (truthy f) eqn:Et.
      + eapply price_flat; eauto. by apply truthy_Q_true.
      + apply price_client; [exact Hs | by rewrite Ef].
    - apply price_client; [exact Hs | by rewrite Ef]. }
  unfold resolvePrice. unfold jsOr at 1.
  destruct (sizePrice p size) as [q|] eqn:Es.
  - destruct (truthy q) eqn:Eq.
    + apply price_by_size; [exact Es | by apply truthy_Q_true].
    + apply Hflat. exact Eq.
  - apply Hflat. reflexivity.
Qed.

(** What the loop body records for a line that passes. *)
Lemma processItem_line prods it oi su :
  processItem castsToObjectId prods it = inr (oi, su) ->
  exists pid nm pr qty sz product,
    readItem it = Some (pid, nm, pr, qty, sz) /\
    prods !! pid = Some product /\
    (qty <= inject_Z (p_stock product))%Q /\
    oi_product oi = pid /\ oi_name oi = nm /\ oi_size oi = sz /\
    oi_price oi = resolvePrice product sz pr /\
    oi_quantity oi = parseInt qty /\
    oi_itemTotal oi = (oi_price oi * inject_Z (oi_quantity oi))%Q /\
    su = {| su_productId := pid; su_quantity := parseInt qty;
            su_currentStock := p_stock product |} /\
    castsToObjectId pid = true.
Proof.
  unfold processItem.
  destruct (readItem it) as [[[[[pid nm] pr] qty] sz]|] eqn:E; [|discriminate].
  destruct (castsToObjectId pid) eqn:Ec; cbn [negb]; [|discriminate].
  destruct (prods !! pid) as [product|] eqn:El; [|discriminate].
  destruct (Qltb _ _) eqn:Elt; [discriminate|].
  intros [= <- <-]. apply Qltb_false in Elt.
  exists pid, nm, pr, qty, sz, product. simpl. repeat split; auto.
Qed.

Lemma lineSum_itemTotals (l : list OrderItem) (a : Q) :
  Forall (fun oi => oi_itemTotal oi
                    = (oi_price oi * inject_Z (oi_quantity oi))%Q) l ->
  fold_left (fun s oi => (s + oi_itemTotal oi)%Q) l a =
  fold_left (fun s oi => (s + oi_price oi * inject_Z (oi_quantity oi))%Q) l a.
Proof.
  intros H. revert a. induction H as [|oi l Hoi _ IH]; intros a; simpl.
  - reflexivity.
  - rewrite Hoi. apply IH.
Qed.

(** C2 (amended): in a successful placement every stored line carries, as
    unit price, the first non-zero price among the first entry of the
    product's size list with the line's size, the product's flat price and
    the price the client submitted; the client's price is stored exactly
    when the first two yield nothing. *)
Theorem createOrder_stored_prices env user req st o :
  fst (create env user req st) = Created o ->
  exists its,
    items req = Some its /\
    Forall2
      (fun it oi =>
         exists pid sz pr product,
           ci_product it = Some pid /\ ci_size it = Some sz /\
           ci_price it = Some pr /\ products st !! pid = Some product /\
           oi_price oi = resolvePrice product sz pr /\
           priceRule product sz pr (oi_price oi))
      its (o_items o).
Proof.
  intros H.
  apply createOrder_created in H
    as (raw & its & method & l & _ & _ & Hi & _ & Hl & _ & -> & _).
  exists its. split; [exact Hi|]. simpl.
  apply processItems_done in Hl as (lines & HF & Ho & _ & _).
  rewrite Ho. simpl. clear Ho Hi.
  induction HF as [|it [oi su] its' lines' Hit _ IH]; simpl; constructor.
  - apply processItem_line in Hit
      as (pid & nm & pr & qty & sz & product & Hr & Hp & _ & _ & _ & _ & Hpr & _).
    apply readItem_Some in Hr as (H1 & _ & H3 & _ & H5 & _).
    exists pid, sz, pr, product. rewrite Hpr.
    repeat split; auto. apply resolvePrice_rule.
  - exact IH.
Qed.

(** The amounts of the order a successful request persists, for whatever
    [sanitizeAmount] does: they are what it returns for the sum of unit
    price times quantity over the stored lines, for the submitted shipping
    cost, for 16% of the stored subtotal and for the stored subtotal plus
    shipping cost plus tax. *)
Lemma createOrder_amounts env user req st o :
  fst (create env user req st) = Created o ->
  o_subtotal o = sanitizeAmount (Some (lineSum (o_items o))) /\
  o_shippingCost o = sanitizeAmount (shippingCost req) /\
  o_tax o = sanitizeAmount (Some (o_subtotal o * (16 # 100))%Q) /\
  o_total o =
    sanitizeAmount (Some (o_subtotal o + o_shippingCost o + o_tax o)%Q).
Proof.
  intros H.
  apply createOrder_created in H
    as (raw & its & method & l & _ & _ & _ & _ & Hl & _ & -> & _).
  assert (Hsum : calculatedSubtotal l = lineSum (orderItems l)).
  { apply processItems_done in Hl as (lines & HF & Ho & _ & Hc).
    rewrite Hc, Ho. simpl. unfold lineSum. apply lineSum_itemTotals.
    clear Ho Hc. induction HF as [|it [oi su] its' lines' Hit _ IH]; simpl;
      constructor; [|exact IH].
    apply processItem_line in Hit
      as (? & ? & ? & ? & ? & ? & _ & _ & _ & _ & _ & _ & _ & _ & Ht & _).
    exact Ht. }
  unfold newOrder.
  cbn [o_subtotal o_shippingCost o_tax o_total o_items].
  repeat split. unfold finalSubtotal. rewrite Hsum. reflexivity.
Qed.

End CreateOrderFacts.

(** ** The sample sanitizer *)

Lemma roundCents_within : sanitizesWithinCent Sample.roundCents.
Proof.
  intros x. unfold Sample.roundCents.
  set (y := (x * 100 + (1 # 2))%Q).
  pose proof (Qfloor_le y) as Hlo.
  pose proof (Qlt_floor y) as Hhi.
  assert (Hz : (Qfloor y # 100 == inject_Z (Qfloor y) * (1 # 100))%Q).
  { unfold Qeq, inject_Z. simpl. lia. }
  rewrite inject_Z_plus in Hhi. change (inject_Z 1) with 1%Q in Hhi.
  apply Qabs_Qle_condition. rewrite Hz. clear Hz.
  revert Hlo Hhi. generalize (inject_Z (Qfloor y)). subst y.
  intros q Hlo Hhi. split; lra.
Qed.

(** ** createOrder on the sample data *)

Lemma createOrder_rejects_amount_mismatch_witness :
  exists l,
    processItems isObjectIdString (products Sample.shop)
      [Sample.line 999 2 "250g"] noLines = inr l /\
    (1 < Qabs (calculatedTotal Sample.roundCents Sample.tampered l
               - clientTotal Sample.roundCents Sample.tampered))%Q /\
    statusCode (fst (Sample.place Sample.customer Sample.tampered Sample.shop))
      = 400%Z /\
    snd (Sample.place Sample.customer Sample.tampered Sample.shop)
      = Sample.shop.
Proof.
  eexists. split; [reflexivity|].
  match goal with
  | |- ?G /\ _ => assert (Hgt : G) by (vm_compute; reflexivity)
  end.
  split; [exact Hgt|].
  destruct (createOrder_rejects_amount_mismatch
              isObjectIdString (fun a => a) (fun e => e) (fun p => p)
              Sample.roundCents
              Sample.env Sample.customer Sample.tampered Sample.shop
              [Sample.line 999 2 "250g"] _ eq_refl eq_refl Hgt)
    as (_ & Hst & H400 & _).
  split; [|exact Hst].
  apply (H400 Sample.nairobi); reflexivity.
Defined.

(** The request with the tampered total, sent by an administrator: the
    lines pass the loop, the totals differ by more than 1.0, and the answer
    is 403. *)
Lemma createOrder_mismatch_of_administrator :
  exists l,
    items Sample.tampered = Some [Sample.line 999 2 "250g"] /\
    totalAmount Sample.tampered = Some (231768 # 100)%Q /\
    processItems isObjectIdString (products Sample.shop)
      [Sample.line 999 2 "250g"] noLines = inr l /\
    (calculatedTotal Sample.roundCents Sample.tampered l == 1160)%Q /\
    (1 < Qabs (calculatedTotal Sample.roundCents Sample.tampered l
               - clientTotal Sample.roundCents Sample.tampered))%Q /\
    statusCode (fst (Sample.place Sample.administrator Sample.tampered
                       Sample.shop)) = 403%Z.
Proof.
  eexists. split; [reflexivity|]. split; [reflexivity|].
  split; [reflexivity|]. repeat split; vm_compute; reflexivity.
Qed.



(** A line whose product reference is no well-formed id ends the request
    with 500, whatever follows it. *)
Lemma createOrder_malformed_product_id :
  statusCode
    (fst (Sample.place Sample.customer
            (Sample.cart
               [ {| ci_product := Some "house-blend";
                    ci_name := Some "House Blend";
                    ci_price := Some 500%Q; ci_quantity := Some 1%Q;
                    ci_size := Some "250g"; ci_image := None |};
                 Sample.line 500 6 "250g" ] 580)
            Sample.shop)) = 500%Z.
Proof. vm_compute. reflexivity. Qed.



Lemma createOrder_initial_state_witness :
  exists o,
    fst (Sample.place Sample.customer Sample.honest Sample.shop) = Created o /\
    o_status o = "confirmed" /\ o_paymentStatus o = "pending" /\
    (te_status <$> o_trackingHistory o) = ["confirmed"].
Proof.
  eexists. split; [reflexivity|].
  destruct (createOrder_initial_state
              isObjectIdString (fun a => a) (fun e => e) (fun p => p)
              Sample.roundCents
              Sample.env Sample.customer Sample.honest Sample.shop _ eq_refl)
    as (_ & Hs & Hcod & _ & Hh).
  split; [exact Hs|]. split; [apply Hcod; reflexivity|].
  rewrite Hh. reflexivity.
Defined.

(** The line of an unlisted size is stored at the client's price, which is
    none of the product's prices. *)
Lemma createOrder_stores_client_price :
  exists o,
    fst (Sample.place Sample.customer Sample.unlisted Sample.shop) = Created o /\
    ci_price <$> default [] (items Sample.unlisted) = [Some 1%Q] /\
    oi_price <$> o_items o = [1%Q] /\
    sp_price <$> p_sizes Sample.houseBlend = [500%Q; 900%Q] /\
    p_price Sample.houseBlend = None.
Proof. eexists. vm_compute. repeat split. Qed.

Lemma createOrder_stored_prices_witness :
  exists o,
    fst (Sample.place Sample.customer Sample.honest Sample.shop) = Created o /\
    exists it oi,
      items Sample.honest = Some [it] /\ o_items o = [oi] /\
      priceRule Sample.houseBlend "250g" 500 (oi_price oi).
Proof.
  eexists. split; [reflexivity|].
  destruct (createOrder_stored_prices
              isObjectIdString (fun a => a) (fun e => e) (fun p => p)
              Sample.roundCents
              Sample.env Sample.customer Sample.honest Sample.shop _ eq_refl)
    as (its & Hi & HF).
  injection Hi as <-.
  apply Forall2_cons_inv_l in HF as (oi & rest & Hoi & Hrest & Heq).
  apply Forall2_nil_inv_l in Hrest as ->.
  destruct Hoi as (pid & sz & pr & product & Hp & Hs & Hc & Hl & _ & Hr).
  injection Hp as <-. injection Hs as <-. injection Hc as <-.
  vm_compute in Hl. injection Hl as <-.
  eexists _, oi. split; [reflexivity|]. split; [exact Heq | exact Hr].
Defined.

(** ** Product stock *)

Section ProductFacts.

Import ProductModel.

Lemma preSave_flag p : p_inStock (preSave p) = (0 <? p_stock (preSave p))%Z.
Proof. reflexivity. Qed.

(** A document that [save()] accepts satisfies the invariant. *)
Lemma save_invariant p p' : save p = Some p' -> stockInvariant p'.
Proof.
  unfold save, validate. destruct (0 <=? p_stock p)%Z eqn:E; simpl; [|discriminate].
  case_match; [|discriminate]. intros [= <-].
  split; [apply Z.leb_le in E; exact E | reflexivity].
Qed.

Lemma saving_invariant p p' : saving p = Saved p' -> stockInvariant p'.
Proof.
  unfold saving. destruct (save p) eqn:E; [|discriminate].
  intros [= <-]. eapply save_invariant; eauto.
Qed.

Lemma updateStock_invariant n p p' :
  updateStock n p = Saved p' -> stockInvariant p' /\ p_stock p' = n.
Proof.
  unfold updateStock. intros Hsv. split; [eapply saving_invariant; eauto|].
  unfold saving, save in Hsv. case_match; [|discriminate].
  case_match; simplify_eq. reflexivity.
Qed.

Lemma decreaseStock_invariant q p p' :
  decreaseStock q p = Saved p' ->
  stockInvariant p' /\ p_stock p' = (p_stock p - q)%Z.
Proof.
  unfold decreaseStock. case_match; [|discriminate].
  intros Hsv. split; [eapply saving_invariant; eauto|].
  unfold saving, save in Hsv. case_match; [|discriminate].
  case_match; simplify_eq. reflexivity.
Qed.

Lemma increaseStock_invariant q p p' :
  increaseStock q p = Saved p' ->
  stockInvariant p' /\ p_stock p' = (p_stock p + q)%Z.
Proof.
  unfold increaseStock. intros Hsv. split; [eapply saving_invariant; eauto|].
  unfold saving, save in Hsv. case_match; [|discriminate].
  case_match; simplify_eq. reflexivity.
Qed.

(** The decrement of order placement keeps the invariant of the product it
    touches when the stock recorded in the update is the stock the product
    has at that moment. *)
Lemma applyStockUpdate_current prods u p :
  prods !! su_productId u = Some p ->
  su_currentStock u = p_stock p ->
  (su_quantity u <= p_stock p)%Z ->
  exists p',
    applyStockUpdate prods u !! su_productId u = Some p' /\
    p_stock p' = (p_stock p - su_quantity u)%Z /\ stockInvariant p'.
Proof.
  intros Hl Hc Hq. unfold applyStockUpdate.
  rewrite lookup_alter_eq, Hl. simpl. eexists. split; [reflexivity|].
  unfold stockInvariant. simpl. rewrite Hc.
  split; [lia|]. split; [lia|]. f_equal.
Qed.

End ProductFacts.

(** C9: the product starts within the invariant; the request with two
    lines for it is accepted; afterwards its stock is -1 and its flag says
    in stock. *)
Theorem createOrder_two_lines_break_stock_invariant :
  stockInvariant Sample.houseBlend /\
  statusCode (fst (Sample.place Sample.customer Sample.twoLines Sample.shop))
    = 201%Z /\
  exists p,
    products (snd (Sample.place Sample.customer Sample.twoLines Sample.shop))
      !! Sample.blendId = Some p /\
    p_stock p = (-1)%Z /\ p_inStock p = true /\ ~ stockInvariant p.
Proof.
  split; [split; [vm_compute; discriminate | reflexivity]|].
  split; [vm_compute; reflexivity|].
  eexists. split; [vm_compute; reflexivity|].
  split; [reflexivity|]. split; [reflexivity|].
  intros [H _]. vm_compute in H. apply H. reflexivity.
Qed.

(** ** updateOrderStatus *)

(** The table of the handler and the tabulated transitions agree. *)
Lemma includes_allowed current target :
  (exists targets,
     allowed current = Some targets /\ includes targets target = true) <->
  permitted current target.
Proof.
  split.
  - intros (targets & Ha & Hi). revert Ha Hi.
    unfold allowed, validTransitions, inheritedKeys, includes.
    cbn [List.find existsb fst snd orb].
    string_cases; cbn [List.find existsb fst snd orb];
      intros [= <-]; cbn [existsb orb]; intros H;
      string_cases; try discriminate; constructor.
  - intros H. destruct H; eexists; split; reflexivity.
Qed.

(** The statuses at which the lookup finds no list. *)
Lemma allowed_None current :
  allowed current = None <-> current ∈ inheritedKeys.
Proof.
  split.
  - unfold allowed, validTransitions, inheritedKeys.
    cbn [List.find existsb fst snd orb].
    string_cases; cbn [List.find existsb fst snd orb]; try discriminate;
      intros _; apply list_elem_of_In; simpl; tauto.
  - intros H. apply list_elem_of_In in H. simpl in H.
    repeat (destruct H as [<-|H]; [reflexivity|]). destruct H.
Qed.

Lemma permitted_not_inherited current target :
  permitted current target -> current ∉ inheritedKeys.
Proof.
  intros Hp Hin. apply allowed_None in Hin.
  apply includes_allowed in Hp as (targets & Ha & _). congruence.
Qed.

Lemma includesThrows_true current target :
  includesThrows current target = true <->
  statusChanges current target = true /\ current ∈ inheritedKeys.
Proof.
  unfold includesThrows. rewrite andb_true_iff, <- allowed_None.
  destruct (allowed current); split; intros [? ?]; split; congruence.
Qed.

Lemma statusChanges_true current target :
  target <> "" -> target <> current ->
  statusChanges current (Some target) = true.
Proof.
  intros Hne Hdiff. unfold statusChanges.
  apply truthy_string_true in Hne. rewrite Hne.
  apply String.eqb_neq in Hdiff. rewrite String.eqb_sym, Hdiff. reflexivity.
Qed.

(** A request for another status passes the transition check exactly when
    the transition is tabulated. *)
Lemma transitionRefused_false_iff current target :
  target <> "" -> target <> current ->
  (includesThrows current (Some target) = false /\
   transitionRefused current (Some target) = false) <->
  permitted current target.
Proof.
  intros Hne Hdiff.
  pose proof (statusChanges_true _ _ Hne Hdiff) as Hc.
  rewrite <- includes_allowed.
  unfold includesThrows, transitionRefused. rewrite Hc.
  unfold statusChanges in Hc. rewrite Hc. cbn [andb].
  destruct (allowed current) as [targets|].
  - rewrite negb_false_iff. split.
    + intros [_ H]. eauto.
    + intros (t' & [= <-] & H). auto.
  - split; [intros [? _]; discriminate | intros (t' & ? & _); discriminate].
Qed.

Lemma transitionRefused_same current :
  includesThrows current (Some current) = false /\
  transitionRefused current (Some current) = false.
Proof.
  unfold includesThrows, transitionRefused, statusChanges.
  rewrite String.eqb_refl. cbn [negb]. rewrite !andb_false_r. auto.
Qed.

(** The 400 of the transition check is reached only past the lookup. *)
Lemma transitionRefused_not_throws current target :
  transitionRefused current target = true ->
  includesThrows current target = false.
Proof.
  unfold transitionRefused, includesThrows, statusChanges.
  destruct target as [s|]; [|discriminate].
  destruct (allowed current); [intros _; apply andb_false_r|].
  rewrite andb_false_r. discriminate.
Qed.

(** The ways in which the handler answers a known order. *)
Lemma updateOrderStatus_accepts now id req st order :
  orders st !! id = Some order ->
  includesThrows (o_status order) (status req) = false ->
  transitionRefused (o_status order) (status req) = false ->
  trackingMissing order req = false ->
  updateOrderStatus now id req st =
    (Updated (applyStatus now order req),
     {| products := products st;
        orders := <[id := applyStatus now order req]> (orders st) |}).
Proof.
  intros Ho Hi Ht Hm. unfold updateOrderStatus. rewrite Ho, Hi, Ht, Hm.
  reflexivity.
Qed.

Lemma updateOrderStatus_updated now id req st order o' :
  orders st !! id = Some order ->
  fst (updateOrderStatus now id req st) = Updated o' ->
  includesThrows (o_status order) (status req) = false /\
  transitionRefused (o_status order) (status req) = false /\
  trackingMissing order req = false /\
  o' = applyStatus now order req /\
  snd (updateOrderStatus now id req st) =
    {| products := products st; orders := <[id := o']> (orders st) |}.
Proof.
  intros Ho. unfold updateOrderStatus. rewrite Ho.
  destruct (includesThrows _ _); [discriminate|].
  destruct (transitionRefused _ _); [discriminate|].
  destruct (trackingMissing _ _); [discriminate|].
  simpl. intros [= <-]. auto.
Qed.

Lemma updateOrderStatus_refused_keeps_store now id req st e :
  fst (updateOrderStatus now id req st) = Refused e ->
  snd (updateOrderStatus now id req st) = st.
Proof.
  unfold updateOrderStatus. repeat case_match; simpl; try reflexivity.
  discriminate.
Qed.

(** C4: for an order in the store, the handler only ever moves the status
    along the tabulated transitions; a request for a status other than the
    current one succeeds exactly when the transition is tabulated and the
    tracking requirement is met; otherwise it is refused and changes
    nothing, with 400 naming both statuses, or with the 500 of a TypeError
    when the stored status is the name of a property that
    [validTransitions] inherits; 'cancelled' and 'returned' admit no other
    status; a request for the current status passes the transition test. *)
Theorem updateOrderStatus_transition_table now id req st order :
  orders st !! id = Some order ->
  (forall o',
     fst (updateOrderStatus now id req st) = Updated o' ->
     o_status o' = o_status order \/ permitted (o_status order) (o_status o')) /\
  (forall target,
     status req = Some target -> target <> "" -> target <> o_status order ->
     ((exists o', fst (updateOrderStatus now id req st) = Updated o' /\
                  o_status o' = target) <->
      (permitted (o_status order) target /\ trackingMissing order req = false)) /\
     (~ permitted (o_status order) target ->
      (exists e, updateOrderStatus now id req st = (Refused e, st)) /\
      (o_status order ∉ inheritedKeys ->
       updateOrderStatus now id req st =
         (Refused (InvalidTransition (o_status order) target), st)) /\
      (o_status order ∈ inheritedKeys ->
       updateOrderStatus now id req st = (Refused IncludesNotAFunction, st))) /\
     (o_status order = "cancelled" \/ o_status order = "returned" ->
      updateOrderStatus now id req st =
        (Refused (InvalidTransition (o_status order) target), st))) /\
  (status req = Some (o_status order) ->
   includesThrows (o_status order) (status req) = false /\
   transitionRefused (o_status order) (status req) = false /\
   (trackingMissing order req = false ->
    exists o', fst (updateOrderStatus now id req st) = Updated o' /\
               o_status o' = o_status order)).
Proof.
  intros Ho. split; [|split].
  - intros o' Hu.
    apply (updateOrderStatus_updated _ _ _ _ _ _ Ho) in Hu
      as (Hi & Ht & _ & -> & _).
    unfold applyStatus, jsOr. cbn [o_status].
    destruct (status req) as [t|]; [|left; reflexivity].
    destruct (truthy t) eqn:Et; [|left; reflexivity].
    destruct (String.eqb_spec (o_status order) t) as [->|Hd]; [left; reflexivity|].
    right. apply transitionRefused_false_iff; auto.
    apply truthy_string_true; exact Et.
  - intros target Hs Hne Hd.
    pose proof (statusChanges_true _ _ Hne Hd) as Hc.
    assert (Hthrow : o_status order ∈ inheritedKeys ->
      updateOrderStatus now id req st = (Refused IncludesNotAFunction, st)).
    { intros Hin. unfold updateOrderStatus. rewrite Ho, Hs.
      assert (Hi : includesThrows (o_status order) (Some target) = true)
        by (apply includesThrows_true; auto).
      rewrite Hi. reflexivity. }
    assert (Hrefuse : ~ permitted (o_status order) target ->
      o_status order ∉ inheritedKeys ->
      updateOrderStatus now id req st =
        (Refused (InvalidTransition (o_status order) target), st)).
    { intros Hnp Hnin. unfold updateOrderStatus. rewrite Ho, Hs.
      destruct (includesThrows (o_status order) (Some target)) eqn:Ei.
      - apply includesThrows_true in Ei as [_ Hin]. contradiction.
      - destruct (transitionRefused (o_status order) (Some target)) eqn:Et.
        + reflexivity.
        + exfalso. apply Hnp. apply transitionRefused_false_iff; auto. }
    split; [|split].
    + split.
      * intros (o' & Hu & _).
        apply (updateOrderStatus_updated _ _ _ _ _ _ Ho) in Hu
          as (Hi & Ht & Hm & _ & _).
        rewrite Hs in Hi, Ht. split; [|exact Hm].
        apply transitionRefused_false_iff; auto.
      * intros (Hp & Hm).
        apply transitionRefused_false_iff in Hp as [Hi Ht]; auto.
        rewrite <- Hs in Hi, Ht.
        rewrite (updateOrderStatus_accepts _ _ _ _ _ Ho Hi Ht Hm).
        eexists. split; [reflexivity|].
        unfold applyStatus, jsOr. cbn [o_status]. rewrite Hs.
        apply truthy_string_true in Hne. rewrite Hne. reflexivity.
    + intros Hnp. split; [|split; [apply Hrefuse; exact Hnp | exact Hthrow]].
      destruct (decide (o_status order ∈ inheritedKeys)) as [Hin|Hnin].
      * rewrite (Hthrow Hin). eauto.
      * rewrite (Hrefuse Hnp Hnin). eauto.
    + intros Hterm. apply Hrefuse.
      * intros Hp. destruct Hterm as [Hc'|Hc']; rewrite Hc' in Hp; inversion Hp.
      * intros Hin. apply list_elem_of_In in Hin. simpl in Hin.
        destruct Hterm as [Hc'|Hc']; rewrite Hc' in Hin;
          repeat (destruct Hin as [Hin|Hin]; [discriminate|]); exact Hin.
  - intros Hs. rewrite Hs.
    destruct (transitionRefused_same (o_status order)) as [Hi Ht].
    split; [exact Hi|]. split; [exact Ht|].
    intros Hm. rewrite <- Hs in Hi, Ht.
    rewrite (updateOrderStatus_accepts _ _ _ _ _ Ho Hi Ht Hm).
    eexists. split; [reflexivity|].
    unfold applyStatus, jsOr. cbn [o_status]. rewrite Hs.
    destruct (truthy (o_status order)); reflexivity.
Qed.

(** A request for 'shipped' on an order whose status is no inherited
    property name: without a tracking number on the order or in the call it
    is refused with 400 and changes nothing; with a tracking number it
    succeeds whenever the transition is permitted, and the order written
    back has status 'shipped' and that tracking number. *)
Lemma updateOrderStatus_shipped_regular now id req st order :
  orders st !! id = Some order ->
  status req = Some "shipped" ->
  o_status order ∉ inheritedKeys ->
  (truthy (trackingNumber req) = false ->
   truthy (o_trackingNumber order) = false ->
   exists e,
     fst (updateOrderStatus now id req st) = Refused e /\
     statusErrorCode e = 400%Z /\
     snd (updateOrderStatus now id req st) = st /\
     (o_status order = "shipped" \/ permitted (o_status order) "shipped" ->
      e = TrackingRequired)) /\
  (forall t,
     trackingNumber req = Some t -> t <> "" ->
     o_status order = "shipped" \/ permitted (o_status order) "shipped" ->
     exists o',
       fst (updateOrderStatus now id req st) = Updated o' /\
       o_status o' = "shipped" /\ o_trackingNumber o' = Some t /\
       orders (snd (updateOrderStatus now id req st)) !! id = Some o').
Proof.
  intros Ho Hs Hnin.
  assert (Hi : includesThrows (o_status order) (status req) = false).
  { destruct (includesThrows _ _) eqn:E; [|reflexivity].
    apply includesThrows_true in E as [_ Hin]. contradiction. }
  assert (Hcheck :
    o_status order = "shipped" \/ permitted (o_status order) "shipped" ->
    transitionRefused (o_status order) (status req) = false).
  { rewrite Hs. intros [->|Hp]; [apply transitionRefused_same|].
    destruct (String.eqb_spec "shipped" (o_status order)) as [<-|Hd];
      [apply transitionRefused_same|].
    apply transitionRefused_false_iff; auto; discriminate. }
  split.
  - intros Hreq Hold.
    assert (Hm : trackingMissing order req = true).
    { unfold trackingMissing. rewrite Hs, Hreq, Hold. reflexivity. }
    unfold updateOrderStatus. rewrite Ho, Hi.
    destruct (transitionRefused (o_status order) (status req)) eqn:Et.
    + eexists. repeat split. intros Hp. apply Hcheck in Hp. congruence.
    + rewrite Hm. eexists. repeat split.
  - intros t Ht Hne Hp.
    assert (Htr : truthy (trackingNumber req) = true).
    { rewrite Ht. apply truthy_string_true. exact Hne. }
    assert (Hm : trackingMissing order req = false).
    { unfold trackingMissing. rewrite Htr. cbn [negb].
      rewrite andb_false_r. reflexivity. }
    rewrite (updateOrderStatus_accepts _ _ _ _ _ Ho Hi (Hcheck Hp) Hm).
    eexists. split; [reflexivity|]. cbn [snd orders].
    split; [|split].
    + unfold applyStatus. cbn [o_status]. rewrite Hs. reflexivity.
    + unfold applyStatus, assignIf. cbn [o_trackingNumber].
      rewrite Htr. exact Ht.
    + apply lookup_insert_eq.
Qed.

(** C10: a successful call leaves a tracking history that is the previous
    one followed by exactly one new entry, so that every earlier entry
    stays where and what it was, sets [statusUpdatedAt], and writes the order
    back; a request for the current status succeeds (tracking requirement
    met) and records its entry all the same. *)
Theorem updateOrderStatus_appends_history now id req st order :
  orders st !! id = Some order ->
  (forall o',
     fst (updateOrderStatus now id req st) = Updated o' ->
     o_trackingHistory o' =
       (o_trackingHistory order ++ [historyEntry now (o_status o') req])%list /\
     length (o_trackingHistory o') = S (length (o_trackingHistory order)) /\
     (forall i e, o_trackingHistory order !! i = Some e ->
                  o_trackingHistory o' !! i = Some e) /\
     o_statusUpdatedAt o' = Some now /\
     orders (snd (updateOrderStatus now id req st)) !! id = Some o') /\
  (status req = Some (o_status order) ->
   trackingMissing order req = false ->
   exists o',
     fst (updateOrderStatus now id req st) = Updated o' /\
     o_status o' = o_status order /\
     o_trackingHistory o' =
       (o_trackingHistory order
          ++ [historyEntry now (o_status order) req])%list /\
     o_statusUpdatedAt o' = Some now).
Proof.
  intros Ho. split.
  - intros o' Hu.
    apply (updateOrderStatus_updated _ _ _ _ _ _ Ho) in Hu
      as (_ & _ & _ & -> & ->).
    unfold applyStatus.
    cbn [o_trackingHistory o_status o_statusUpdatedAt snd orders].
    split; [reflexivity|]. split; [|split; [|split]].
    + rewrite length_app. simpl. lia.
    + intros i e Hi. apply lookup_app_l_Some. exact Hi.
    + reflexivity.
    + apply lookup_insert_eq.
  - intros Hs Hm.
    destruct (transitionRefused_same (o_status order)) as [Hi Ht].
    rewrite <- Hs in Hi, Ht.
    rewrite (updateOrderStatus_accepts _ _ _ _ _ Ho Hi Ht Hm).
    eexists. split; [reflexivity|].
    assert (Hsame : jsOr (status req) (o_status order) = o_status order).
    { unfold jsOr. rewrite Hs. destruct (truthy (o_status order)); reflexivity. }
    unfold applyStatus. cbn [o_trackingHistory o_status o_statusUpdatedAt].
    rewrite Hsame. repeat split.
Qed.

(** ** updateOrderStatus on the sample data *)

Lemma updateOrderStatus_transition_table_witness :
  (exists order, orders Sample.shopWithOrder !! Sample.orderId = Some order /\
                 o_status order = "confirmed") /\
  (exists o',
     fst (updateOrderStatus 1700000100000 Sample.orderId
            (Sample.moveTo "processing") Sample.shopWithOrder) = Updated o' /\
     o_status o' = "processing") /\
  updateOrderStatus 1700000100000 Sample.orderId
    (Sample.moveTo "delivered") Sample.shopWithOrder
  = (Refused (InvalidTransition "confirmed" "delivered"), Sample.shopWithOrder) /\
  updateOrderStatus 1700000100000 Sample.orderId
    (Sample.moveTo "shipped") Demo.mislabelled
  = (Refused IncludesNotAFunction, Demo.mislabelled).
Proof.
  split; [eexists; split; reflexivity|].
  split; [|split].
  - destruct (updateOrderStatus_transition_table 1700000100000 Sample.orderId
                (Sample.moveTo "processing") Sample.shopWithOrder _ eq_refl)
      as (_ & Hdiff & _).
    destruct (Hdiff "processing" eq_refl ltac:(discriminate)
                ltac:(discriminate)) as (Hiff & _).
    apply Hiff. split; [constructor | reflexivity].
  - destruct (updateOrderStatus_transition_table 1700000100000 Sample.orderId
                (Sample.moveTo "delivered") Sample.shopWithOrder _ eq_refl)
      as (_ & Hdiff & _).
    destruct (Hdiff "delivered" eq_refl ltac:(discriminate)
                ltac:(discriminate)) as (_ & Hrefuse & _).
    destruct Hrefuse as (_ & H400 & _); [intros Hp; inversion Hp|].
    apply H400. intros Hin. apply list_elem_of_In in Hin. simpl in Hin.
    repeat (destruct Hin as [Hin|Hin]; [discriminate|]). exact Hin.
  - destruct (updateOrderStatus_transition_table 1700000100000 Sample.orderId
                (Sample.moveTo "shipped") Demo.mislabelled _ eq_refl)
      as (_ & Hdiff & _).
    destruct (Hdiff "shipped" eq_refl ltac:(discriminate)
                ltac:(discriminate)) as (_ & Hrefuse & _).
    destruct Hrefuse as (_ & _ & H500); [intros Hp; inversion Hp|].
    apply H500. apply list_elem_of_In. simpl. tauto.
Defined.

(** C5: the admin route has stored the status 'constructor' on the sample
    order, which carries no tracking number; the request for 'shipped'
    without a tracking number is then answered with the 500 of a TypeError
    instead of 400, and changes nothing. *)
Theorem updateOrderStatus_shipped_inherited_status :
  (exists order,
     fst (adminUpdateOrderStatus 1700000050000 Sample.orderId "constructor"
            None Sample.shopWithOrder) = Updated order /\
     orders Demo.mislabelled !! Sample.orderId = Some order /\
     o_status order = "constructor" /\ o_trackingNumber order = None) /\
  status (Sample.ship None) = Some "shipped" /\
  trackingNumber (Sample.ship None) = None /\
  updateOrderStatus 1700000100000 Sample.orderId (Sample.ship None)
    Demo.mislabelled
  = (Refused IncludesNotAFunction, Demo.mislabelled) /\
  statusResponseCode
    (fst (updateOrderStatus 1700000100000 Sample.orderId (Sample.ship None)
            Demo.mislabelled)) = 500%Z.
Proof.
  split; [eexists; repeat split; reflexivity|].
  split; [reflexivity|]. split; [reflexivity|].
  split; reflexivity.
Qed.

(** On the sample order, whose status is 'confirmed', the request for
    'shipped' is answered 400 without a tracking number and succeeds with
    one. *)
Lemma updateOrderStatus_shipped_sample :
  (exists e,
     fst (updateOrderStatus 1700000100000 Sample.orderId
            (Sample.ship None) Sample.shopWithOrder) = Refused e /\
     statusErrorCode e = 400%Z) /\
  (exists o',
     fst (updateOrderStatus 1700000100000 Sample.orderId
            (Sample.ship (Some "TRK-0042")) Sample.shopWithOrder) = Updated o' /\
     o_trackingNumber o' = Some "TRK-0042").
Proof.
  assert (Hreg : "confirmed" ∉ inheritedKeys).
  { intros Hin. apply list_elem_of_In in Hin. simpl in Hin.
    repeat (destruct Hin as [Hin|Hin]; [discriminate|]). exact Hin. }
  split.
  - destruct (updateOrderStatus_shipped_regular 1700000100000 Sample.orderId
                (Sample.ship None) Sample.shopWithOrder _ eq_refl eq_refl Hreg)
      as (Hnone & _).
    destruct (Hnone eq_refl eq_refl) as (e & He & H400 & _).
    exists e. split; assumption.
  - destruct (updateOrderStatus_shipped_regular 1700000100000 Sample.orderId
                (Sample.ship (Some "TRK-0042")) Sample.shopWithOrder _
                eq_refl eq_refl Hreg) as (_ & Hsome).
    destruct (Hsome "TRK-0042" eq_refl ltac:(discriminate)
                ltac:(right; constructor)) as (o' & Hu & _ & Ht & _).
    exists o'. split; assumption.
Qed.

Lemma updateOrderStatus_appends_history_witness :
  exists order o',
    orders Sample.shopWithOrder !! Sample.orderId = Some order /\
    fst (updateOrderStatus 1700000100000 Sample.orderId
           (Sample.moveTo "confirmed") Sample.shopWithOrder) = Updated o' /\
    length (o_trackingHistory order) = 1 /\
    length (o_trackingHistory o') = 2 /\
    o_statusUpdatedAt o' = Some 1700000100000%Z.
Proof.
  eexists. 
  destruct (updateOrderStatus_appends_history 1700000100000 Sample.orderId
              (Sample.moveTo "confirmed") Sample.shopWithOrder _ eq_refl)
    as (_ & Hsame).
  destruct (Hsame eq_refl eq_refl) as (o' & Hu & _ & Hh & Hat).
  exists o'. split; [reflexivity|]. split; [exact Hu|].
  split; [reflexivity|]. split; [rewrite Hh; reflexivity | exact Hat].
Defined.

(** * Further properties *)

#[local] Set Warnings "-clear-no-such-hyp".

(** ** The slug of a product *)


Ltac char_arith :=
  unfold slugOut, slugKept, isSpace, isDash, between in *;
  repeat progress
    (rewrite ?andb_true_iff, ?orb_true_iff, ?andb_false_iff, ?orb_false_iff,
       ?Nat.leb_le, ?Nat.leb_gt, ?Nat.eqb_eq, ?Nat.eqb_neq in * );
  lia.

Lemma slugOut_not_space c : slugOut c = true -> isSpace c = false.
Proof. intros H. char_arith. Qed.

Lemma slugOut_kept c : slugOut c = true -> slugKept c = true.
Proof. intros H. char_arith. Qed.

Lemma slugKept_out c : slugKept c = true -> isSpace c = false -> slugOut c = true.
Proof. intros H1 H2. char_arith. Qed.

Lemma slugOut_lower c : slugOut c = true -> toLower c = c.
Proof.
  intros H. unfold toLower.
  assert (E : between 65 90 c = false) by char_arith.
  rewrite E. reflexivity.
Qed.

Lemma isDash_eq c : isDash c = true -> c = "-"%char.
Proof.
  unfold isDash, charCode. intros H. apply Nat.eqb_eq in H.
  rewrite <- (ascii_nat_embedding c), H. reflexivity.
Qed.

Lemma dash_out : slugOut "-"%char = true.
Proof. reflexivity. Qed.

Lemma squeeze_space_out b l :
  Forall (fun c => slugKept c = true) l ->
  Forall (fun c => slugOut c = true) (squeeze isSpace b l).
Proof.
  intros H. revert b. induction H as [|c l Hc _ IH]; intros b; simpl.
  - constructor.
  - destruct (isSpace c) eqn:E.
    + destruct b; [apply IH | constructor; [reflexivity | apply IH]].
    + constructor; [apply slugKept_out; assumption | apply IH].
Qed.

Lemma squeeze_dash_out b l :
  Forall (fun c => slugOut c = true) l ->
  Forall (fun c => slugOut c = true) (squeeze isDash b l).
Proof.
  intros H. revert b. induction H as [|c l Hc _ IH]; intros b; simpl.
  - constructor.
  - destruct (isDash c) eqn:E.
    + destruct b; [apply IH | constructor; [reflexivity | apply IH]].
    + constructor; [assumption | apply IH].
Qed.

Lemma trimStart_id l :
  Forall (fun c => isSpace c = false) l -> trimStart l = l.
Proof. intros H. destruct H as [|c l Hc _]; simpl; [|rewrite Hc]; reflexivity. Qed.

Lemma trim_id l : Forall (fun c => isSpace c = false) l -> trim l = l.
Proof.
  intros H. unfold trim. rewrite (trimStart_id l H).
  rewrite trimStart_id; [apply rev_involutive|].
  apply Forall_rev. exact H.
Qed.

Lemma noDoubleDash_cons c d r :
  noDoubleDash (c :: d :: r)
  = negb (isDash c && isDash d) && noDoubleDash (d :: r).
Proof. reflexivity. Qed.

Lemma squeeze_dash_shape b l :
  noDoubleDash (squeeze isDash b l) = true /\
  (b = true -> forall c rest, squeeze isDash b l = c :: rest -> isDash c = false).
Proof.
  revert b. induction l as [|c l IH]; intros b; cbn [squeeze].
  - split; [reflexivity | discriminate].
  - destruct (isDash c) eqn:E.
    + destruct b.
      * apply IH.
      * split; [|discriminate].
        destruct (IH true) as [Hn Hh].
        destruct (squeeze isDash true l) as [|d r] eqn:Es; [reflexivity|].
        rewrite noDoubleDash_cons.
        rewrite (Hh eq_refl d r eq_refl), andb_false_r. exact Hn.
    + destruct (IH false) as [Hn _]. split.
      * destruct (squeeze isDash false l) as [|d r] eqn:Es; [reflexivity|].
        rewrite noDoubleDash_cons, E. exact Hn.
      * intros _ c' rest [= <- _]. exact E.
Qed.

Lemma squeeze_none X b l :
  Forall (fun c => X c = false) l -> squeeze X b l = l.
Proof.
  intros H. revert b. induction H as [|c l Hc _ IH]; intros b; simpl;
    [reflexivity|]. rewrite Hc, IH. reflexivity.
Qed.

Lemma noDoubleDash_tail c l : noDoubleDash (c :: l) = true -> noDoubleDash l = true.
Proof.
  destruct l as [|d r]; [reflexivity|]. rewrite noDoubleDash_cons.
  intros H. apply andb_true_iff in H as [_ H]. exact H.
Qed.

Lemma squeeze_dash_fixed b l :
  noDoubleDash l = true ->
  (b = true -> forall c rest, l = c :: rest -> isDash c = false) ->
  squeeze isDash b l = l.
Proof.
  revert b. induction l as [|c l IH]; intros b Hn Hh; cbn [squeeze];
    [reflexivity|].
  pose proof (noDoubleDash_tail c l Hn) as Ht.
  destruct (isDash c) eqn:E.
  - destruct b; [rewrite (Hh eq_refl c l eq_refl) in E; discriminate|].
    rewrite <- (isDash_eq c E). f_equal. apply IH; [exact Ht|].
    intros _ d r ->. rewrite noDoubleDash_cons, E in Hn.
    apply andb_true_iff in Hn as [Hd _]. apply negb_true_iff in Hd. exact Hd.
  - f_equal. apply IH; [exact Ht | discriminate].
Qed.

Lemma replaced_shape l :
  Forall (fun c => slugOut c = true) (replaced l) /\
  noDoubleDash (replaced l) = true.
Proof.
  unfold replaced.
  set (kept := filter (fun c => slugKept c = true) (map toLower l)).
  assert (Hk : Forall (fun c => slugKept c = true) kept).
  { apply Forall_forall. intros c Hc. unfold kept in Hc.
    apply list_elem_of_filter in Hc as [Hc _]. exact Hc. }
  split; [|apply squeeze_dash_shape].
  exact (squeeze_dash_out false _ (squeeze_space_out false _ Hk)).
Qed.

(** No space is left for the closing [trim()] to remove. *)
Lemma slugChars_replaced l : slugChars l = replaced l.
Proof.
  unfold slugChars. apply trim_id.
  destruct (replaced_shape l) as [Hout _].
  eapply Forall_impl; [exact Hout|]. intros c. apply slugOut_not_space.
Qed.

Lemma slugChars_shape l :
  Forall (fun c => slugOut c = true) (slugChars l) /\
  noDoubleDash (slugChars l) = true.
Proof. rewrite slugChars_replaced. apply replaced_shape. Qed.

Lemma slugChars_fixed l :
  Forall (fun c => slugOut c = true) l -> noDoubleDash l = true ->
  slugChars l = l.
Proof.
  intros Ho Hn. rewrite slugChars_replaced. unfold replaced.
  assert (Hm : map toLower l = l).
  { clear Hn. induction Ho as [|c l Hc _ IH]; simpl; [reflexivity|].
    rewrite (slugOut_lower c Hc), IH. reflexivity. }
  assert (Hf : filter (fun c => slugKept c = true) l = l).
  { clear Hn Hm. induction Ho as [|c l Hc _ IH]; [reflexivity|].
    rewrite filter_cons_True; [|apply slugOut_kept; exact Hc].
    rewrite IH. reflexivity. }
  assert (Hs : Forall (fun c => isSpace c = false) l).
  { eapply Forall_impl; [exact Ho|]. intros c. apply slugOut_not_space. }
  rewrite Hm, Hf, (squeeze_none isSpace false l Hs).
  apply (squeeze_dash_fixed false l Hn). discriminate.
Qed.

(** A run that closes the text leaves a dash at its end. *)
Lemma squeeze_closing_run X b l c :
  X c = true ->
  (exists body, squeeze X b (l ++ [c]) = body ++ ["-"%char])%list \/
  (b = true /\ squeeze X b (l ++ [c])%list = []).
Proof.
  intros Hc. revert b. induction l as [|d l IH]; intros b; simpl.
  - rewrite Hc. destruct b; [right; auto | left; exists []; reflexivity].
  - destruct (X d).
    + destruct b.
      * apply IH.
      * left. destruct (IH true) as [[body ->]|[_ ->]].
        -- exists ("-"%char :: body). reflexivity.
        -- exists []. reflexivity.
    + left. destruct (IH false) as [[body ->]|[Hb _]]; [|discriminate].
      exists (d :: body). reflexivity.
Qed.

Lemma squeeze_closing_other X b l c :
  X c = false -> squeeze X b (l ++ [c])%list = (squeeze X b l ++ [c])%list.
Proof.
  intros Hc. revert b. induction l as [|d l IH]; intros b; simpl.
  - rewrite Hc. reflexivity.
  - destruct (X d); [destruct b|]; rewrite IH; reflexivity.
Qed.

(** A text that ends in a space or a dash is replaced by one that ends in
    a dash, and likewise at the front. *)
Lemma replaced_ends_in_dash front c :
  c = " "%char \/ c = "-"%char ->
  exists body, replaced (front ++ [c]) = (body ++ ["-"%char])%list.
Proof.
  intros Hc. unfold replaced.
  assert (Hk : filter (fun c => slugKept c = true) (map toLower (front ++ [c]))
               = (filter (fun c => slugKept c = true) (map toLower front)
                  ++ [c])%list).
  { rewrite map_app, filter_app. f_equal.
    destruct Hc as [-> | ->]; reflexivity. }
  rewrite Hk.
  set (kept := filter (fun c => slugKept c = true) (map toLower front)).
  assert (Hs : exists body,
            squeeze isSpace false (kept ++ [c]) = (body ++ ["-"%char])%list).
  { destruct Hc as [-> | ->].
    - destruct (squeeze_closing_run isSpace false kept " "%char eq_refl)
        as [H|[Hb _]]; [exact H | discriminate].
    - rewrite squeeze_closing_other by reflexivity. eauto. }
  destruct Hs as [body ->].
  destruct (squeeze_closing_run isDash false body "-"%char eq_refl)
    as [H|[Hb _]]; [exact H | discriminate].
Qed.

Lemma replaced_begins_with_dash c rest :
  c = " "%char \/ c = "-"%char ->
  exists tail, replaced (c :: rest) = "-"%char :: tail.
Proof.
  intros [-> | ->]; unfold replaced; cbn [map];
    (rewrite filter_cons_True by reflexivity); eexists; reflexivity.
Qed.

(** X1 (models/Product.js, the slug of the pre-save hook): whatever the text,
    the slug computed from it holds only lower-case letters, digits and
    dashes, never two dashes in a row; the closing [trim()] removes
    nothing, the slug being the text as the replacements left it, so that
    a text that begins with a space or a dash gives a slug that begins with
    a dash, and one that ends in a space or a dash a slug that ends in a
    dash. *)
Theorem baseSlug_shape (s : string) :
  let text := String.list_ascii_of_string s in
  let out := String.list_ascii_of_string (baseSlug s) in
  Forall (fun c => slugOut c = true) out /\ noDoubleDash out = true /\
  out = replaced text /\
  (forall c rest,
     text = c :: rest -> c = " "%char \/ c = "-"%char ->
     exists tail, out = "-"%char :: tail) /\
  (forall front c,
     text = (front ++ [c])%list -> c = " "%char \/ c = "-"%char ->
     exists body, out = (body ++ ["-"%char])%list).
Proof.
  unfold baseSlug. cbv zeta. rewrite String.list_ascii_of_string_of_list_ascii.
  rewrite slugChars_replaced.
  destruct (replaced_shape (String.list_ascii_of_string s)) as [Ho Hn].
  split; [exact Ho|]. split; [exact Hn|]. split; [reflexivity|]. split.
  - intros c rest -> Hc. apply replaced_begins_with_dash. exact Hc.
  - intros front c -> Hc. apply replaced_ends_in_dash. exact Hc.
Qed.

(** X2 (models/Product.js, the slug of the pre-save hook): computing the
    slug of a slug gives it back. *)
Theorem baseSlug_idempotent (s : string) : baseSlug (baseSlug s) = baseSlug s.
Proof.
  unfold baseSlug. rewrite String.list_ascii_of_string_of_list_ascii.
  destruct (slugChars_shape (String.list_ascii_of_string s)) as [Ho Hn].
  rewrite (slugChars_fixed _ Ho Hn). reflexivity.
Qed.

(** ** The error middleware and the reading of orders *)

(** X6 (middleware/errorMiddleware.js): errorHandler never answers 200; it
    answers 400 to a ValidationError and to a duplicate key (code 11000);
    every other error keeps its message and the status the handler had set,
    500 when none was set; so the status of a refusal of the order handlers
    passes unchanged, and notFound is answered with 404. *)
Theorem errorHandler_status resStatus err :
  fst (errorHandler resStatus err) <> 200%Z /\
  (err_name err = "ValidationError" \/ err_code err = Some 11000%Z ->
   fst (errorHandler resStatus err) = 400%Z) /\
  (err_name err <> "ValidationError" -> err_code err <> Some 11000%Z ->
   errorHandler resStatus err
   = (if (resStatus =? 200)%Z then 500%Z else resStatus, err_message err)) /\
  (forall e message,
     errorHandler (statusErrorCode e) (plainError message)
     = (statusErrorCode e, message)) /\
  (forall url,
     fst (errorHandler (fst (notFound url)) (snd (notFound url))) = 404%Z).
Proof.
  unfold errorHandler.
  destruct (String.eqb_spec (err_name err) "ValidationError") as [Hn|Hn];
    destruct (bool_decide (err_code err = Some 11000%Z)) eqn:Hc;
    [apply bool_decide_eq_true in Hc | apply bool_decide_eq_false in Hc
     | apply bool_decide_eq_true in Hc | apply bool_decide_eq_false in Hc];
    cbn [fst snd].
  all: repeat split; try discriminate; try reflexivity; try congruence;
    try (intros [?|?]; congruence);
    try (intros e message; destruct e; reflexivity).
  all: try (destruct (Z.eqb_spec resStatus 200); lia).
Qed.



Section ReadingFacts.

Variable isValid : string -> bool.
Variable accounts : gset string.
Variable castMessage : string -> string.
Variable nullReadMessage : string.

(** X7 (controllers/orderController.js, getOrderById): the order is sent
    exactly when the id is well-formed, the order exists, its user still
    exists, and the caller is its owner or has the role admin; the answer
    is 403 exactly for an existing order of another user read without the
    role admin, and 404 exactly for a well-formed id of no order. *)
Theorem getOrderById_access user id st :
  (forall o,
     getOrderById isValid accounts user id st = Sent o <->
     isValid id = true /\ orders st !! id = Some o /\ o_user o ∈ accounts /\
     (o_user o = u_id user \/ u_role user = Some "admin")) /\
  (answerStatus (getOrderById isValid accounts user id st) = 403%Z <->
   isValid id = true /\
   exists o, orders st !! id = Some o /\ o_user o ∈ accounts /\
             o_user o <> u_id user /\ u_role user <> Some "admin") /\
  (answerStatus (getOrderById isValid accounts user id st) = 404%Z <->
   isValid id = true /\ orders st !! id = None).
Proof.
  assert (Hrole : hasAdminRole user = true <-> u_role user = Some "admin").
  { unfold hasAdminRole. destruct (u_role user) as [r|]; [|split; discriminate].
    rewrite String.eqb_eq. split; congruence. }
  assert (Hrole' : hasAdminRole user = false <-> u_role user <> Some "admin").
  { rewrite <- Hrole. destruct (hasAdminRole user); split; congruence. }
  unfold getOrderById.
  destruct (isValid id); cbn [negb]; [|naive_solver].
  destruct (orders st !! id) as [order|] eqn:Ho; [|naive_solver].
  destruct (bool_decide (o_user order ∈ accounts)) eqn:Ha;
    [apply bool_decide_eq_true in Ha | apply bool_decide_eq_false in Ha];
    [|cbn [answerStatus]; naive_solver].
  destruct (String.eqb_spec (o_user order) (u_id user)) as [Hown|Hown];
    destruct (hasAdminRole user) eqn:Hr; cbn [negb andb answerStatus];
    try (apply Hrole in Hr); try (apply Hrole' in Hr); naive_solver.
Qed.


Lemma createOrder_owner castsToObjectId sanitizeObject sanitizeEmail
    sanitizePhone sanitizeAmount
    env user req st o :
  fst (createOrder castsToObjectId sanitizeObject sanitizeEmail sanitizePhone sanitizeAmount
         env user req st) = Created o ->
  o_user o = u_id user /\
  orders (snd (createOrder castsToObjectId sanitizeObject sanitizeEmail
                 sanitizePhone sanitizeAmount env user req st)) !! env_orderId env = Some o.
Proof.
  intros H.
  apply createOrder_created in H
    as (raw & its & method & l & _ & _ & _ & _ & _ & _ & -> & ->).
  split; [reflexivity | apply lookup_insert_eq].
Qed.

(** X8 (createOrder, then getOrderById): the customer who placed an order
    reads back that very order under its id, and every other caller
    without the role admin is answered 403. *)
Theorem createOrder_then_getOrderById
    castsToObjectId sanitizeObject sanitizeEmail sanitizePhone sanitizeAmount
    env user req st o :
  fst (createOrder castsToObjectId sanitizeObject sanitizeEmail sanitizePhone sanitizeAmount
         env user req st) = Created o ->
  isValid (env_orderId env) = true ->
  u_id user ∈ accounts ->
  let st' := snd (createOrder castsToObjectId sanitizeObject sanitizeEmail
                    sanitizePhone sanitizeAmount env user req st) in
  getOrderById isValid accounts user (env_orderId env) st' = Sent o /\
  (forall other,
     u_id other <> u_id user -> u_role other <> Some "admin" ->
     getOrderById isValid accounts other (env_orderId env) st'
     = Failure 403 "Not authorized to view this order").
Proof.
  intros Hc Hv Ha st'.
  destruct (createOrder_owner _ _ _ _ _ _ _ _ _ _ Hc) as [Hu Hl].
  fold st' in Hl. unfold getOrderById. rewrite Hv, Hl. cbn [negb].
  rewrite Hu, bool_decide_eq_true_2 by exact Ha.
  split.
  - rewrite String.eqb_refl. reflexivity.
  - intros other Hne Hrole.
    assert (E : String.eqb (u_id user) (u_id other) = false)
      by (apply String.eqb_neq; congruence).
    assert (R : hasAdminRole other = false).
    { unfold hasAdminRole. destruct (u_role other) as [r|]; [|reflexivity].
      apply String.eqb_neq. congruence. }
    rewrite E, R. reflexivity.
Qed.

(** X9 (controllers/orderController.js, generateOrderInvoice): the invoice
    is streamed for exactly the callers and orders getOrderById answers;
    for a well-formed id the two routes answer with the same status; for a
    malformed id getOrderById answers 400 and the invoice route 500. *)
Theorem generateOrderInvoice_like_getOrderById user id st :
  (forall o,
     generateOrderInvoice isValid accounts castMessage nullReadMessage user id st
       = Sent o <->
     getOrderById isValid accounts user id st = Sent o) /\
  (isValid id = true ->
   answerStatus (generateOrderInvoice isValid accounts castMessage
                   nullReadMessage user id st)
   = answerStatus (getOrderById isValid accounts user id st)) /\
  (isValid id = false ->
   answerStatus (getOrderById isValid accounts user id st) = 400%Z /\
   answerStatus (generateOrderInvoice isValid accounts castMessage
                   nullReadMessage user id st) = 500%Z).
Proof.
  unfold generateOrderInvoice, generateOrderInvoiceStep, getOrderById.
  destruct (isValid id); cbn [negb].
  - destruct (orders st !! id) as [order|];
      [|split; [split; discriminate | split; [reflexivity | discriminate]]].
    destruct (bool_decide (o_user order ∈ accounts));
      [|split; [split; discriminate | split; [reflexivity | discriminate]]].
    destruct (negb (String.eqb (o_user order) (u_id user))
              && negb (hasAdminRole user)).
    + split; [split; discriminate | split; [reflexivity | discriminate]].
    + split; [tauto | split; [reflexivity | discriminate]].
  - split; [split; discriminate | split; [discriminate | split; reflexivity]].
Qed.

Variable newestFirst : list Order -> list Order.
Hypothesis newestFirst_perm : forall l, newestFirst l ≡ₚ l.

Abbreviation myOrders := (getUserOrders newestFirst).

(** X10 (controllers/orderController.js, getUserOrders): whatever the page
    and the limit, every order sent is a stored order of the caller, and
    the total reported is the number of the caller's orders. *)
Theorem getUserOrders_own user page limit st found pg :
  myOrders user page limit st = Sent (found, pg) ->
  exists u,
    user = Some u /\
    (forall o, o ∈ found ->
       o_user o = u_id u /\ exists id, orders st !! id = Some o) /\
    pg_total pg = Z.of_nat (length (ordersOf (u_id u) st)).
Proof.
  unfold getUserOrders. destruct user as [u|]; [|discriminate].
  destruct (negb (truthy (u_id u))); [discriminate|].
  unfold window. destruct (_ <? 0)%Z; [discriminate|].
  intros [= <- <-]. exists u. split; [reflexivity|]. split; [|reflexivity].
  intros o Ho.
  assert (Hin : o ∈ ordersOf (u_id u) st).
  { rewrite <- (newestFirst_perm (ordersOf (u_id u) st)).
    case_match.
    - eapply subseteq_drop; eauto.
    - eapply subseteq_drop, subseteq_take; eauto. }
  unfold ordersOf in Hin. apply list_elem_of_filter in Hin as [Hu Hin].
  split; [exact Hu|].
  apply list_elem_of_fmap in Hin as ([id o'] & -> & Hin).
  apply elem_of_map_to_list in Hin. eauto.
Qed.



End ReadingFacts.

(** ** Stock after a placement *)


Lemma applyStockUpdate_lookup prods u pid :
  applyStockUpdate prods u !! pid =
  if String.eqb (su_productId u) pid
  then (fun p => setStock p (p_stock p + - su_quantity u)%Z
                   (0 <? su_currentStock u - su_quantity u)%Z) <$> prods !! pid
  else prods !! pid.
Proof.
  unfold applyStockUpdate.
  destruct (String.eqb_spec (su_productId u) pid) as [->|Hne].
  - apply lookup_alter_eq.
  - apply lookup_alter_ne. exact Hne.
Qed.

(** The stock of a product after the updates. *)
Lemma applyStockUpdates_stock prods us pid :
  p_stock <$> (applyStockUpdates prods us !! pid) =
  (fun p => (p_stock p - updatedQuantity pid us)%Z) <$> (prods !! pid).
Proof.
  unfold applyStockUpdates. revert prods.
  induction us as [|u us IH]; intros prods; simpl.
  - destruct (prods !! pid); simpl; [f_equal; lia | reflexivity].
  - rewrite IH, applyStockUpdate_lookup.
    destruct (String.eqb (su_productId u) pid);
      destruct (prods !! pid); simpl; try reflexivity.
    f_equal. lia.
Qed.

Lemma applyStockUpdates_untouched prods us pid :
  pid ∉ su_productId <$> us ->
  applyStockUpdates prods us !! pid = prods !! pid.
Proof.
  unfold applyStockUpdates. revert prods.
  induction us as [|u us IH]; intros prods Hnin; simpl; [reflexivity|].
  rewrite fmap_cons in Hnin. apply not_elem_of_cons in Hnin as [Hne Hnin].
  rewrite IH by exact Hnin. rewrite applyStockUpdate_lookup.
  destruct (String.eqb_spec (su_productId u) pid); [congruence | reflexivity].
Qed.





Lemma parseInt_integer (q : Q) (n : Z) :
  (q == inject_Z n)%Q -> (Z.abs n < 10 ^ 21)%Z -> parseInt q = n.
Proof.
  unfold Qeq, inject_Z, parseInt. cbn [Qnum Qden]. intros H Hb.
  rewrite Z.mul_1_r in H. rewrite H.
  change (10 ^ 6)%Z with 1000000%Z.
  change (10 ^ 21)%Z with 1000000000000000000000%Z in *.
  assert (Hd : (0 < Z.pos (Qden q))%Z) by reflexivity.
  rewrite Z.abs_mul, (Z.abs_eq (Z.pos (Qden q))) by lia.
  destruct (Z.eqb_spec (Z.abs n * Z.pos (Qden q)) 0) as [E|Hnz]; [nia|].
  assert (H1 : (1 <= Z.abs n)%Z).
  { destruct (Z.eq_dec (Z.abs n) 0%Z) as [E0|E0]; [rewrite E0 in Hnz|]; lia. }
  assert (H2 : (Z.pos (Qden q) <= Z.abs n * Z.pos (Qden q))%Z) by nia.
  destruct (Z.ltb_spec (Z.abs n * Z.pos (Qden q) * 1000000) (Z.pos (Qden q)));
    [lia|].
  destruct (Z.leb_spec (1000000000000000000000 * Z.pos (Qden q))
              (Z.abs n * Z.pos (Qden q))); [nia|].
  apply Z.quot_mul. lia.
Qed.

Lemma applyStockUpdates_shape prods us pid p :
  prods !! pid = Some p ->
  exists inStock,
    applyStockUpdates prods us !! pid
    = Some (setStock p (p_stock p - updatedQuantity pid us)%Z inStock).
Proof.
  unfold applyStockUpdates. revert prods p.
  induction us as [|u us IH]; intros prods p Hp; simpl.
  - exists (p_inStock p). rewrite Hp. f_equal. destruct p; unfold setStock; simpl.
    f_equal. lia.
  - destruct (String.eqb_spec (su_productId u) pid) as [E|E].
    + edestruct (IH (applyStockUpdate prods u)) as [b Hb].
      { rewrite applyStockUpdate_lookup.
        apply String.eqb_eq in E. rewrite E, Hp. reflexivity. }
      exists b. rewrite Hb. f_equal. unfold setStock. simpl. f_equal. lia.
    + edestruct (IH (applyStockUpdate prods u)) as [b Hb].
      { rewrite applyStockUpdate_lookup.
        apply String.eqb_neq in E. rewrite E. exact Hp. }
      exists b. exact Hb.
Qed.

Lemma applyStockUpdates_None prods us pid :
  prods !! pid = None -> applyStockUpdates prods us !! pid = None.
Proof.
  unfold applyStockUpdates. revert prods.
  induction us as [|u us IH]; intros prods Hp; simpl; [exact Hp|].
  apply IH. rewrite applyStockUpdate_lookup.
  destruct (String.eqb (su_productId u) pid); rewrite Hp; reflexivity.
Qed.

Lemma updatedQuantity_ordered pid ois sus :
  Forall2 (fun oi su => su_productId su = oi_product oi /\
                        su_quantity su = oi_quantity oi /\ True) ois sus ->
  updatedQuantity pid sus = orderedQuantity pid ois.
Proof.
  induction 1 as [|oi su ois sus (Hi & Hq & _) _ IH]; simpl; [reflexivity|].
  rewrite Hi, Hq, IH. reflexivity.
Qed.

Section PlacementStock.

Variable castsToObjectId : string -> bool.
Variable sanitizeObject : Address -> Address.
Variable sanitizeEmail : option string -> option string.
Variable sanitizePhone : option string -> option string.
Variable sanitizeAmount : option Q -> Q.

Abbreviation create :=
  (createOrder castsToObjectId sanitizeObject sanitizeEmail sanitizePhone
     sanitizeAmount).

(** The updates recorded by a completed loop, line by line: each is for the
    product of its line, by the quantity [parseInt] reads off the submitted
    one, which the stock covers. *)
Lemma processItems_updates prods its l :
  processItems castsToObjectId prods its noLines = inr l ->
  Forall2 (fun oi su =>
             su_productId su = oi_product oi /\
             su_quantity su = oi_quantity oi /\
             exists p q it,
               prods !! oi_product oi = Some p /\
               su_currentStock su = p_stock p /\
               it ∈ its /\ ci_quantity it = Some q /\
               su_quantity su = parseInt q /\
               (q <= inject_Z (p_stock p))%Q)
          (orderItems l) (stockUpdates l).
Proof.
  intros H. apply processItems_done in H as (lines & HF & Ho & Hs & _).
  rewrite Ho, Hs. simpl. clear Ho Hs.
  induction HF as [|it [oi su] its' lines' Hit _ IH]; simpl; constructor.
  - apply processItem_line in Hit
      as (pid & nm & pr & qty & sz & product & Hr & Hp & Hq & Hid & _ & _ & _
          & Hn & _ & -> & _).
    apply readItem_Some in Hr as (_ & _ & _ & Hqty & _).
    simpl. rewrite Hid, Hn. split; [reflexivity|]. split; [reflexivity|].
    exists product, qty, it. split; [exact Hp|]. split; [reflexivity|].
    split; [apply list_elem_of_here|]. split; [exact Hqty|].
    split; [reflexivity | exact Hq].
  - eapply Forall2_impl; [exact IH|].
    intros oi' su' (Hi & Hq & p & q & it' & Hp & Hc & Hin & Hrest).
    split; [exact Hi|]. split; [exact Hq|].
    exists p, q, it'. split; [exact Hp|]. split; [exact Hc|].
    split; [apply list_elem_of_further; exact Hin | exact Hrest].
Qed.

(** X12 (createOrder, the stock update loop): a successful placement lowers
    the stock of every product by the quantity ordered of it over all the
    lines, changes nothing else of the product but the flag [inStock], and
    adds and removes no product. *)
Theorem createOrder_decrements_stock env user req st o :
  fst (create env user req st) = Created o ->
  (forall pid p,
     products st !! pid = Some p ->
     exists inStock,
       products (snd (create env user req st)) !! pid
       = Some (setStock p (p_stock p - orderedQuantity pid (o_items o))%Z
                 inStock)) /\
  (forall pid,
     products st !! pid = None ->
     products (snd (create env user req st)) !! pid = None).
Proof.
  intros H.
  apply createOrder_created in H
    as (raw & its & method & l & _ & _ & _ & _ & Hl & _ & -> & ->).
  cbn [snd products newOrder o_items].
  pose proof (processItems_updates _ _ _ Hl) as HF.
  split.
  - intros pid p Hp.
    destruct (applyStockUpdates_shape (products st) (stockUpdates l) pid p Hp)
      as [b Hb].
    exists b. rewrite Hb.
    rewrite (updatedQuantity_ordered pid (orderItems l) (stockUpdates l));
      [reflexivity|].
    eapply Forall2_impl; [exact HF|]. intros oi su (? & ? & _). auto.
  - intros pid Hp. apply applyStockUpdates_None. exact Hp.
Qed.


End PlacementStock.

(** ** The admin routes and the methods of a product *)

(** X15 (controllers/adminController.js, updateOrderStatus): on an existing
    order the admin route writes any status it is given, with the time of
    the change and without a history entry, also for a transition that
    updateOrderStatus of the order controller refuses as invalid. *)
Theorem adminUpdateOrderStatus_ignores_table now id target tracking st order :
  orders st !! id = Some order ->
  (exists o',
     adminUpdateOrderStatus now id target tracking st
     = (Updated o',
        {| products := products st; orders := <[id := o']> (orders st) |}) /\
     o_status o' = target /\
     o_trackingHistory o' = o_trackingHistory order /\
     o_statusUpdatedAt o' = Some now) /\
  (forall req,
     status req = Some target ->
     transitionRefused (o_status order) (Some target) = true ->
     updateOrderStatus now id req st
     = (Refused (InvalidTransition (o_status order) target), st)).
Proof.
  intros Ho. split.
  - unfold adminUpdateOrderStatus. rewrite Ho. eexists. repeat split.
  - intros req Hs Ht. unfold updateOrderStatus. rewrite Ho, Hs, Ht.
    rewrite (transitionRefused_not_throws _ _ Ht). reflexivity.
Qed.


Lemma validateSizes_inr index raw sizes :
  validateSizes index raw = inr sizes -> Forall2 sizeAccepted raw sizes.
Proof.
  revert index sizes. induction raw as [|r raw IH]; intros index sizes; simpl.
  - intros [= <-]. constructor.
  - destruct (rs_price r) as [q|] eqn:Eq; [|discriminate].
    destruct (Qle_bool q 0) eqn:El; [discriminate|].
    destruct (validateSizes (S index) raw) as [bad|rest] eqn:Er; [discriminate|].
    intros [= <-]. constructor; [|eapply IH; eauto].
    repeat split; [exact Eq|]. simpl.
    apply Qnot_le_lt. intros Hle. apply Qle_bool_iff in Hle. congruence.
Qed.

Lemma validateSizes_inl index raw j size :
  validateSizes index raw = inl (j, size) ->
  exists pre r post,
    raw = (pre ++ r :: post)%list /\ j = (index + length pre)%nat /\
    rs_size r = size /\ sizeRefused r /\
    Forall (fun x => exists s, sizeAccepted x s) pre.
Proof.
  revert index. induction raw as [|r raw IH]; intros index; simpl; [discriminate|].
  destruct (rs_price r) as [q|] eqn:Eq.
  - destruct (Qle_bool q 0) eqn:El.
    + intros [= <- <-]. exists [], r, raw. repeat split; [simpl; lia| |constructor].
      right. exists q. split; [exact Eq | apply Qle_bool_iff; exact El].
    + destruct (validateSizes (S index) raw) as [bad|rest] eqn:Er; [|discriminate].
      intros [= ->]. apply IH in Er as (pre & r' & post & -> & -> & Hs & Hb & Hp).
      exists (r :: pre), r', post. repeat split; [simpl; lia|exact Hs|exact Hb|].
      constructor; [|exact Hp].
      exists {| sp_size := rs_size r; sp_price := q |}. repeat split; [exact Eq|].
      simpl. apply Qnot_le_lt. intros Hle. apply Qle_bool_iff in Hle. congruence.
  - intros [= <- <-]. exists [], r, raw. repeat split; [simpl; lia| |constructor].
    left. exact Eq.
Qed.

(** X16 (controllers/adminController.js, createProduct and updateProduct,
    the validation of sizes): the sizes stored are the submitted ones, in
    order, each with its parsed price, all above zero; a refusal names the
    first entry whose price is NaN or not above zero. *)
Theorem validateSizes_outcome index raw :
  match validateSizes index raw with
  | inr sizes => Forall2 sizeAccepted raw sizes
  | inl (j, size) =>
    exists pre r post,
      raw = (pre ++ r :: post)%list /\ j = (index + length pre)%nat /\
      rs_size r = size /\ sizeRefused r /\
      Forall (fun x => exists s, sizeAccepted x s) pre
  end.
Proof.
  destruct (validateSizes index raw) as [[j size]|sizes] eqn:E.
  - apply validateSizes_inl. exact E.
  - eapply validateSizes_inr. exact E.
Qed.

(** X17 (the validation of sizes, then the price of a line in createOrder):
    on a product whose sizes went through the validation, every listed
    price is above zero, and the price of a line for a listed size is the
    listed price, whatever the client submits. *)
Theorem validateSizes_listed_price index raw sizes :
  validateSizes index raw = inr sizes ->
  forall p size listed client,
    p_sizes p = sizes -> sizePrice p size = Some listed ->
    (0 < listed)%Q /\ resolvePrice p size client = listed.
Proof.
  intros H. apply validateSizes_inr in H.
  intros p size listed client Hp Hs.
  assert (Hpos : (0 < listed)%Q).
  { unfold sizePrice in Hs. rewrite Hp in Hs.
    destruct (List.find _ sizes) as [s|] eqn:Ef; [|discriminate].
    injection Hs as <-. apply find_some in Ef as [Hin _].
    clear -H Hin. induction H as [|r s' raw sizes (_ & _ & Hq) _ IH];
      [destruct Hin|]. destruct Hin as [<-|Hin]; auto. }
  split; [exact Hpos|].
  unfold resolvePrice, jsOr. rewrite Hs.
  assert (T : truthy listed = true).
  { apply truthy_Q_true. intros E. rewrite E in Hpos. apply (Qlt_irrefl 0 Hpos). }
  rewrite T. reflexivity.
Qed.

(** X14 (createOrder, the low-stock alert of the stock update loop): when
    no product is updated twice, a product is handed to the low-stock alert
    exactly when it is an updated product whose final stock is at or below
    its threshold, as the virtual [isLowStock] tells. *)
Theorem stockUpdateAlerts_distinct prods us :
  NoDup (su_productId <$> us) ->
  forall p',
    p' ∈ stockUpdateAlerts prods us <->
    exists u, u ∈ us /\
      applyStockUpdates prods us !! su_productId u = Some p' /\
      isLowStock p' = true.
Proof.
  revert prods. induction us as [|u0 us IH]; intros prods Hnd p'.
  - simpl. split; [intros H; by apply not_elem_of_nil in H|].
    intros (u & Hu & _). by apply not_elem_of_nil in Hu.
  - rewrite fmap_cons in Hnd. apply NoDup_cons in Hnd as [Hfresh Hnd].
    cbn [stockUpdateAlerts].
    set (prods' := applyStockUpdate prods u0).
    assert (Hfinal0 : applyStockUpdates prods (u0 :: us) !! su_productId u0
                      = prods' !! su_productId u0).
    { change (applyStockUpdates prods (u0 :: us))
        with (applyStockUpdates prods' us).
      apply applyStockUpdates_untouched. exact Hfresh. }
    assert (Hrest : p' ∈ stockUpdateAlerts prods' us <->
                    exists u, u ∈ us /\
                      applyStockUpdates prods (u0 :: us) !! su_productId u
                      = Some p' /\ isLowStock p' = true)
      by (apply IH; exact Hnd).
    assert (Hsplit :
      (exists u, u ∈ u0 :: us /\
         applyStockUpdates prods (u0 :: us) !! su_productId u = Some p' /\
         isLowStock p' = true) <->
      (prods' !! su_productId u0 = Some p' /\ isLowStock p' = true) \/
      p' ∈ stockUpdateAlerts prods' us).
    { rewrite Hrest. split.
      - intros (u & Hu & Hl & Hlow). apply elem_of_cons in Hu as [->|Hu].
        + left. rewrite <- Hfinal0. auto.
        + right. eauto.
      - intros [[Hl Hlow]|(u & Hu & Hl & Hlow)].
        + exists u0. rewrite Hfinal0. split; [apply list_elem_of_here|auto].
        + exists u. split; [apply list_elem_of_further; exact Hu | auto]. }
    rewrite Hsplit. unfold isLowStock.
    destruct (prods' !! su_productId u0) as [p0|] eqn:E0.
    + destruct (p_stock p0 <=? p_lowStockAlert p0)%Z eqn:Elow.
      * rewrite elem_of_cons. split.
        -- intros [->|H]; [left; auto | right; exact H].
        -- intros [[[= ->] _]|H]; [left; reflexivity | right; exact H].
      * split; [auto|]. intros [[[= ->] Hlow]|H]; [congruence | exact H].
    + split; [auto|]. intros [[[=] _]|H]. exact H.
Qed.

Section ProductMethodFacts.

Import ProductModel.

(** X4 (models/Product.js, updateStock, decreaseStock, increaseStock): a
    call that saves leaves exactly the new stock with the flag [inStock]
    set to "stock above zero", and a stock that is not negative;
    decreaseStock saves only when the stock covers the quantity, and throws
    'Insufficient stock' exactly when it does not. *)
Theorem stock_methods_outcomes (p p' : Product) (n : Z) :
  (updateStock n p = Saved p' ->
   stockInvariant p' /\ p' = setStock p n (0 <? n)%Z) /\
  (decreaseStock n p = Saved p' ->
   (n <= p_stock p)%Z /\ stockInvariant p' /\
   p' = setStock p (p_stock p - n)%Z (0 <? p_stock p - n)%Z) /\
  (increaseStock n p = Saved p' ->
   stockInvariant p' /\
   p' = setStock p (p_stock p + n)%Z (0 <? p_stock p + n)%Z) /\
  (decreaseStock n p = Thrown "Insufficient stock" <-> (p_stock p < n)%Z).
Proof.
  assert (Hsaving : forall d d', saving d = Saved d' ->
            stockInvariant d' /\ d' = setStock d (p_stock d) (0 <? p_stock d)%Z).
  { intros d d' H. split; [eapply saving_invariant; eauto|].
    unfold saving, save in H. destruct (validate d); [|discriminate].
    injection H as <-. reflexivity. }
  repeat split.
  - apply Hsaving in H as [H _]. apply H.
  - apply Hsaving in H as [H _]. apply H.
  - apply Hsaving in H as [_ ->]. reflexivity.
  - unfold decreaseStock in H. destruct (Z.leb_spec n (p_stock p)); [lia|discriminate].
  - unfold decreaseStock in H. destruct (n <=? p_stock p)%Z; [|discriminate].
    apply Hsaving in H as [H _]. apply H.
  - unfold decreaseStock in H. destruct (n <=? p_stock p)%Z; [|discriminate].
    apply Hsaving in H as [H _]. apply H.
  - unfold decreaseStock in H. destruct (n <=? p_stock p)%Z; [|discriminate].
    apply Hsaving in H as [_ ->]. reflexivity.
  - apply Hsaving in H as [H _]. apply H.
  - apply Hsaving in H as [H _]. apply H.
  - apply Hsaving in H as [_ ->]. reflexivity.
  - unfold decreaseStock. destruct (Z.leb_spec n (p_stock p)); [|lia].
    unfold saving. destruct (save _); discriminate.
  - unfold decreaseStock. destruct (Z.leb_spec n (p_stock p)); [lia|reflexivity].
Qed.

(** X5 (models/Product.js, checkAvailability and decreaseStock): on a valid
    product whose flag agrees with its stock, checkAvailability() is the
    flag, checkAvailability(q) for q of at least one is "q is at most the
    stock", and whenever checkAvailability(q) holds decreaseStock(q) saves
    the product with the stock lowered by q. *)
Theorem checkAvailability_decreaseStock (p : Product) (q : Z) :
  stockInvariant p -> validate p = true ->
  checkAvailability None p = p_inStock p /\
  ((1 <= q)%Z -> checkAvailability (Some q) p = (q <=? p_stock p)%Z) /\
  (checkAvailability (Some q) p = true ->
   decreaseStock q p
   = Saved (setStock p (p_stock p - q)%Z (0 <? p_stock p - q)%Z)).
Proof.
  intros [H0 Hflag] Hv. unfold checkAvailability. simpl. rewrite Hflag.
  split; [|split].
  - destruct (Z.ltb_spec 0 (p_stock p)), (Z.leb_spec 1 (p_stock p));
      try reflexivity; lia.
  - intros Hq.
    destruct (Z.ltb_spec 0 (p_stock p)), (Z.leb_spec q (p_stock p));
      try reflexivity; lia.
  - intros Hc. apply andb_true_iff in Hc as [_ Hq].
    unfold decreaseStock. rewrite Hq. apply Z.leb_le in Hq.
    unfold saving, save, validate in *. simpl.
    apply andb_true_iff in Hv as [Hv Hs]. apply andb_true_iff in Hv as [_ Hl].
    rewrite Hl, Hs.
    destruct (Z.leb_spec 0 (p_stock p - q)); [|lia]. reflexivity.
Qed.

End ProductMethodFacts.

(** X3 (models/Product.js, pre-save hook): on a product that has a non-empty
    slug the hook never reads the name; it leaves the slug alone when the
    name was not modified, and also when the name was modified but the slug
    is in slug form and no other product has it; in every case the slug
    afterwards is the old one, its slug form, or its slug form with the
    random token appended. *)
Theorem preSaveSlug_keeps_slug slugs token d s :
  sd_slug d = Some s -> s <> "" ->
  (forall name',
     preSaveSlug slugs token
       {| sd_id := sd_id d; sd_name := name'; sd_slug := sd_slug d;
          sd_nameModified := sd_nameModified d |}
     = preSaveSlug slugs token d) /\
  (sd_nameModified d = false -> preSaveSlug slugs token d = Some s) /\
  (baseSlug s = s -> slugTaken slugs (sd_id d) s = false ->
   preSaveSlug slugs token d = Some s) /\
  (preSaveSlug slugs token d = Some s \/
   preSaveSlug slugs token d = Some (baseSlug s) \/
   preSaveSlug slugs token d = Some (baseSlug s ++ "-" ++ token)).
Proof.
  intros Hs Hne.
  assert (T : truthy (sd_slug d) = true).
  { rewrite Hs. apply truthy_string_true. exact Hne. }
  assert (J : forall name, jsOr (sd_slug d) name = s).
  { intros name. unfold jsOr. rewrite Hs.
    rewrite Hs, truthy_option_Some in T. rewrite T. reflexivity. }
  unfold preSaveSlug. cbn [sd_id sd_name sd_slug sd_nameModified].
  rewrite T, !J. cbn [negb]. rewrite !orb_false_r. cbn [orb].
  destruct (sd_nameModified d).
  - split; [intros name'; rewrite J; reflexivity|].
    split; [discriminate|]. split.
    + intros Hb Ht. rewrite Hb, Ht. reflexivity.
    + destruct (slugTaken _ _ _); auto.
  - repeat split; auto.
Qed.

(** ** The maintenance notice, the cart and the checkout *)





Lemma sameLine_key productId size item :
  sameLine productId size item = true <-> lineKey item = (productId, size).
Proof.
  unfold sameLine, lineKey. rewrite andb_true_iff, !String.eqb_eq.
  split; [intros [-> ->]; reflexivity | intros [= -> ->]; auto].
Qed.

Lemma findIndex_None {A} (f : A -> bool) l :
  findIndex f l = None <-> Forall (fun x => f x = false) l.
Proof.
  induction l as [|x l IH]; simpl.
  - split; [constructor | reflexivity].
  - destruct (f x) eqn:E.
    + split; [discriminate|]. intros H. apply Forall_cons in H as [H _]. congruence.
    + rewrite fmap_None, IH. split.
      * intros H. constructor; assumption.
      * intros H. apply Forall_cons in H as [_ H]. exact H.
Qed.

Lemma findIndex_Some {A} (f : A -> bool) l i :
  findIndex f l = Some i ->
  exists pre x post,
    l = (pre ++ x :: post)%list /\ length pre = i /\ f x = true /\
    Forall (fun y => f y = false) pre.
Proof.
  revert i. induction l as [|x l IH]; intros i; simpl; [discriminate|].
  destruct (f x) eqn:E.
  - intros [= <-]. exists [], x, l. repeat split; [exact E | constructor].
  - intros H. apply fmap_Some in H as (j & Hj & ->).
    apply IH in Hj as (pre & y & post & -> & <- & Hy & Hpre).
    exists (x :: pre), y, post. repeat split; [exact Hy|].
    constructor; assumption.
Qed.

Lemma imap_update_at {A} (g : A -> A) (pre : list A) x post :
  imap (fun index item => if (index =? length pre)%nat then g item else item)
       (pre ++ x :: post)
  = (pre ++ g x :: post)%list.
Proof.
  induction pre as [|y pre IH]; simpl.
  - f_equal. rewrite <- (list_fmap_id post) at 2. rewrite <- imap_const.
    apply imap_ext. intros i z _. reflexivity.
  - f_equal. rewrite <- IH. apply imap_ext. intros i z _. reflexivity.
Qed.

(** The cart after [addToCart], case by case. *)
Lemma addToCart_cases product quantity selectedSize cart :
  match resolveLine product selectedSize with
  | None => addToCart product quantity selectedSize cart = cart
  | Some (productId, itemPrice, finalSize) =>
    (exists pre x post,
       cart = (pre ++ x :: post)%list /\
       lineKey x = (productId, finalSize) /\
       Forall (fun y => lineKey y <> (productId, finalSize)) pre /\
       addToCart product quantity selectedSize cart
       = (pre ++ addQuantity (default 1%Q quantity) x :: post)%list) \/
    (Forall (fun y => lineKey y <> (productId, finalSize)) cart /\
     exists new,
       addToCart product quantity selectedSize cart = (cart ++ [new])%list /\
       lineKey new = (productId, finalSize) /\
       cl_price new = itemPrice /\
       cl_quantity new = default 1%Q quantity /\
       cl_itemTotal new = (itemPrice * default 1%Q quantity)%Q)
  end.
Proof.
  unfold addToCart.
  destruct (resolveLine product selectedSize) as [[[productId itemPrice] finalSize]|];
    [|reflexivity].
  assert (Hno : forall l,
            Forall (fun y => sameLine productId finalSize y = false) l ->
            Forall (fun y => lineKey y <> (productId, finalSize)) l).
  { intros l H. eapply Forall_impl; [exact H|]. intros y Hy Hk.
    apply sameLine_key in Hk. congruence. }
  destruct (findIndex (sameLine productId finalSize) cart) as [idx|] eqn:E.
  - left. apply findIndex_Some in E as (pre & x & post & -> & <- & Hx & Hpre).
    exists pre, x, post. repeat split.
    + apply sameLine_key. exact Hx.
    + apply Hno. exact Hpre.
    + apply imap_update_at.
  - right. apply findIndex_None in E. split; [apply Hno; exact E|].
    eexists. repeat split.
Qed.

(** X19 (context/AppContext.js, addToCart): a cart in which no two lines
    have the same product and size stays so. *)
Theorem addToCart_keeps_lines_distinct product quantity selectedSize cart :
  NoDup (lineKey <$> cart) ->
  NoDup (lineKey <$> addToCart product quantity selectedSize cart).
Proof.
  intros Hnd.
  pose proof (addToCart_cases product quantity selectedSize cart) as Hc.
  destruct (resolveLine product selectedSize) as [[[productId itemPrice] finalSize]|];
    [|rewrite Hc; exact Hnd].
  destruct Hc as [(pre & x & post & -> & Hx & Hpre & ->)|(Hall & new & -> & Hn & _)].
  - rewrite fmap_app, fmap_cons in *. exact Hnd.
  - rewrite fmap_app. apply NoDup_app. split; [exact Hnd|]. split.
    + intros k Hk Hk'. simpl in Hk'. apply list_elem_of_singleton in Hk'. subst k.
      apply list_elem_of_fmap in Hk as (y & Hy & Hin).
      rewrite Forall_forall in Hall. apply (Hall y Hin). congruence.
    + simpl. apply NoDup_singleton.
Qed.

Lemma sumQ_acc {A} (f : A -> Q) (l : list A) (a : Q) :
  (fold_left (fun acc x => acc + f x) l a
   == a + fold_left (fun acc x => acc + f x) l 0)%Q.
Proof.
  revert a. induction l as [|x l IH]; intros a; simpl.
  - lra.
  - rewrite (IH (a + f x)%Q), (IH (0 + f x)%Q). lra.
Qed.

Lemma sumQ_app {A} (f : A -> Q) (l1 l2 : list A) :
  (fold_left (fun acc x => acc + f x) (l1 ++ l2) 0
   == fold_left (fun acc x => acc + f x) l1 0
      + fold_left (fun acc x => acc + f x) l2 0)%Q.
Proof.
  rewrite fold_left_app. apply sumQ_acc.
Qed.

Lemma sumQ_cons {A} (f : A -> Q) (x : A) (l : list A) :
  (fold_left (fun acc y => acc + f y) (x :: l) 0
   == f x + fold_left (fun acc y => acc + f y) l 0)%Q.
Proof. simpl. rewrite sumQ_acc. lra. Qed.

(** X20 (context/AppContext.js, addToCart, getCartTotal, getCartItemCount):
    a product that is turned away leaves the cart as it is; otherwise the
    item count grows by the quantity and the total by the quantity times a
    unit price, which is the price of the line already in the cart when
    there is one for the product and size, and the resolved price
    otherwise. *)
Theorem addToCart_totals product quantity selectedSize cart :
  (resolveLine product selectedSize = None ->
   addToCart product quantity selectedSize cart = cart) /\
  (forall productId itemPrice finalSize,
     resolveLine product selectedSize = Some (productId, itemPrice, finalSize) ->
     (getCartItemCount (addToCart product quantity selectedSize cart)
      == getCartItemCount cart + default 1 quantity)%Q /\
     exists unitPrice,
       (getCartTotal (addToCart product quantity selectedSize cart)
        == getCartTotal cart + unitPrice * default 1 quantity)%Q /\
       ((exists x, x ∈ cart /\ lineKey x = (productId, finalSize) /\
                   unitPrice = cl_price x) \/
        (Forall (fun y => lineKey y <> (productId, finalSize)) cart /\
         unitPrice = itemPrice))).
Proof.
  pose proof (addToCart_cases product quantity selectedSize cart) as Hc.
  split.
  - intros E. rewrite E in Hc. exact Hc.
  - intros productId itemPrice finalSize E. rewrite E in Hc.
    unfold getCartItemCount, getCartTotal.
    destruct Hc as [(pre & x & post & -> & Hx & Hpre & ->)
                   |(Hall & new & -> & Hn & Hp & Hq & _)].
    + split.
      * rewrite !sumQ_app, !sumQ_cons. simpl. lra.
      * exists (cl_price x). split.
        -- rewrite !sumQ_app, !sumQ_cons. simpl. lra.
        -- left. exists x. split; [|auto].
           apply elem_of_app. right. apply list_elem_of_here.
    + split.
      * rewrite sumQ_app, sumQ_cons. simpl. rewrite Hq. lra.
      * exists itemPrice. split; [|right; auto].
        rewrite sumQ_app, sumQ_cons. simpl. rewrite Hp, Hq. lra.
Qed.

Lemma filter_all {A} (f : A -> bool) l :
  Forall (fun x => f x = true) l -> List.filter f l = l.
Proof.
  induction 1 as [|x l Hx _ IH]; simpl; [reflexivity|]. rewrite Hx, IH. reflexivity.
Qed.

(** X21 (context/AppContext.js, removeFromCart after addToCart): removing
    the product and size just added leaves no line for them, and the cart
    is the one removal would have given before the addition: the cart
    before, when it had no such line. *)
Theorem removeFromCart_after_addToCart product quantity selectedSize cart
    productId itemPrice finalSize :
  resolveLine product selectedSize = Some (productId, itemPrice, finalSize) ->
  finalSize <> "" ->
  Forall (fun item => lineKey item <> (productId, finalSize))
         (removeFromCart productId (Some finalSize)
            (addToCart product quantity selectedSize cart)) /\
  removeFromCart productId (Some finalSize)
    (addToCart product quantity selectedSize cart)
  = removeFromCart productId (Some finalSize) cart /\
  (Forall (fun item => lineKey item <> (productId, finalSize)) cart ->
   removeFromCart productId (Some finalSize)
     (addToCart product quantity selectedSize cart) = cart).
Proof.
  intros E Hne.
  assert (T : truthy finalSize = true) by (apply truthy_string_true; exact Hne).
  assert (Hrm : forall l,
    removeFromCart productId (Some finalSize) l
    = List.filter (fun item => negb (sameLine productId finalSize item)) l).
  { intros l. unfold removeFromCart. rewrite T. reflexivity. }
  assert (Hgone : forall l,
    Forall (fun item => lineKey item <> (productId, finalSize))
           (removeFromCart productId (Some finalSize) l)).
  { intros l. rewrite Hrm. apply Forall_forall. intros x Hx.
    apply list_elem_of_In, filter_In in Hx as [_ Hx].
    apply negb_true_iff in Hx. intros Hk. apply sameLine_key in Hk. congruence. }
  assert (Hkeep : forall l,
    Forall (fun item => lineKey item <> (productId, finalSize)) l ->
    removeFromCart productId (Some finalSize) l = l).
  { intros l Hl. rewrite Hrm. apply filter_all.
    eapply Forall_impl; [exact Hl|]. intros x Hx. apply negb_true_iff.
    destruct (sameLine productId finalSize x) eqn:Es; [|reflexivity].
    apply sameLine_key in Es. contradiction. }
  split; [apply Hgone|].
  pose proof (addToCart_cases product quantity selectedSize cart) as Hc.
  rewrite E in Hc.
  assert (Hsame :
    removeFromCart productId (Some finalSize)
      (addToCart product quantity selectedSize cart)
    = removeFromCart productId (Some finalSize) cart).
  { destruct Hc as [(pre & x & post & -> & Hx & Hpre & ->)
                   |(Hall & new & -> & Hn & _)].
    - rewrite !Hrm, !List.filter_app. f_equal. simpl.
      assert (S1 : sameLine productId finalSize x = true)
        by (apply sameLine_key; exact Hx).
      assert (S2 : sameLine productId finalSize
                     (addQuantity (default 1%Q quantity) x) = true)
        by (apply sameLine_key; exact Hx).
      rewrite S1, S2. reflexivity.
    - rewrite !Hrm, List.filter_app. simpl.
      assert (S : sameLine productId finalSize new = true)
        by (apply sameLine_key; exact Hn).
      rewrite S. simpl. apply app_nil_r. }
  split; [exact Hsame|].
  intros Hall. rewrite Hsame. apply Hkeep. exact Hall.
Qed.

(** X22 (context/AppContext.js, updateCartQuantity): a quantity of zero or
    less removes; a quantity above zero keeps the lines, their order, their
    prices and their stored [itemTotal], and gives the quantity to the
    lines addressed and to no other: the lines of the product with the
    size, when a size is given, and all the lines of the product, when none
    is. *)
Theorem updateCartQuantity_effect productId quantity size cart :
  ((quantity <= 0)%Q ->
   updateCartQuantity productId quantity size cart
   = removeFromCart productId size cart) /\
  ((0 < quantity)%Q ->
   let new := updateCartQuantity productId quantity size cart in
   lineKey <$> new = lineKey <$> cart /\
   cl_itemTotal <$> new = cl_itemTotal <$> cart /\
   cl_price <$> new = cl_price <$> cart /\
   Forall2 (fun old item =>
              cl_quantity item = quantity \/ item = old) cart new /\
   (forall s, size = Some s -> s <> "" ->
      Forall2 (fun old item =>
                 if sameLine productId s old
                 then item = setQuantity quantity old else item = old)
              cart new) /\
   (size = None \/ size = Some "" ->
    Forall2 (fun old item =>
               if String.eqb (cl_id old) productId
               then item = setQuantity quantity old else item = old)
            cart new)).
Proof.
  unfold updateCartQuantity, Qleb. split.
  - intros Hq. apply Qle_bool_iff in Hq. rewrite Hq. reflexivity.
  - intros Hq. assert (E : Qle_bool quantity 0 = false).
    { destruct (Qle_bool quantity 0) eqn:E; [|reflexivity].
      apply Qle_bool_iff in E. exfalso. apply (Qlt_not_le _ _ Hq E). }
    rewrite E. cbv zeta.
    repeat split.
    + rewrite <- list_fmap_compose. apply list_fmap_ext. intros i x _. simpl.
      repeat case_match; reflexivity.
    + rewrite <- list_fmap_compose. apply list_fmap_ext. intros i x _. simpl.
      repeat case_match; reflexivity.
    + rewrite <- list_fmap_compose. apply list_fmap_ext. intros i x _. simpl.
      repeat case_match; reflexivity.
    + induction cart as [|x l IH]; simpl; constructor; [|exact IH].
      repeat case_match; auto.
    + intros s -> Hs. apply truthy_string_true in Hs.
      induction cart as [|x l IH]; simpl; constructor; [|exact IH].
      rewrite Hs. destruct (sameLine productId s x); reflexivity.
    + intros [-> | ->]; induction cart as [|x l IH]; simpl; constructor;
        try exact IH; destruct (String.eqb (cl_id x) productId); reflexivity.
Qed.

Lemma validateLine_ok item :
  validateLine item = None ->
  isObjectIdString (lineProductId item) = true /\
  lineProductId item <> "" /\
  (1 <= cl_quantity item)%Q /\ (0 < cl_price item)%Q /\ cl_size item <> "".
Proof.
  unfold validateLine.
  destruct (truthy (lineProductId item)) eqn:Tp; [|discriminate].
  destruct (isObjectIdString (lineProductId item)) eqn:Ti; [|discriminate].
  destruct (truthy (cl_quantity item)) eqn:Tq; [|discriminate].
  destruct (Qltb (cl_quantity item) 1) eqn:Lq; [discriminate|].
  destruct (truthy (cl_price item)) eqn:Tr; [|discriminate].
  destruct (Qltb (cl_price item) 0) eqn:Lr; [discriminate|].
  destruct (truthy (cl_size item)) eqn:Ts; [|discriminate].
  intros _. cbn [negb orb] in *.
  apply truthy_string_true in Tp, Ts. apply truthy_Q_true in Tr.
  apply Qltb_false in Lq, Lr.
  repeat split; auto.
  destruct (Qle_lt_or_eq _ _ Lr) as [H|H]; [exact H|].
  exfalso. apply Tr. symmetry. exact H.
Qed.

(** X23 (Checkout.jsx, validateCartItems and prepareCartItems, then the
    structure check of createOrder): for a cart that validateCartItems
    accepts and whose lines have names, prepareCartItems throws nothing and
    gives one item per line, a list that is not empty and none of whose
    items the structure check of createOrder turns down. *)
Theorem validated_cart_passes_structure_check cart :
  validateCartItems cart = None ->
  Forall (fun line => truthy (cl_name line) = true) cart ->
  exists its,
    prepareCartItems cart = inr its /\ its <> [] /\
    length its = length cart /\
    Forall (fun it => itemInvalid it = false) its.
Proof.
  intros Hv Hn.
  assert (Hne : cart <> []) by (destruct cart; [discriminate | discriminate]).
  assert (Hl : validateLines cart = None) by (destruct cart; [congruence|exact Hv]).
  clear Hv.
  assert (H : exists its, prepareCartItems cart = inr its /\
                          length its = length cart /\
                          Forall (fun it => itemInvalid it = false) its).
  { clear Hne. induction Hn as [|item cart Hname _ IH]; simpl in *.
    - exists []. repeat split. constructor.
    - destruct (validateLine item) eqn:Ev; [discriminate|].
      destruct (IH Hl) as (its & -> & Hlen & Hall).
      apply validateLine_ok in Ev as (Hid & Hp & Hq & Hr & Hs).
      rewrite Hid. cbn [negb]. eexists. repeat split.
      + simpl. rewrite Hlen. reflexivity.
      + constructor; [|exact Hall].
        unfold itemInvalid. cbn [ci_product ci_name ci_price ci_quantity ci_size].
        rewrite !truthy_option_Some, Hname.
        assert (T1 : truthy (lineProductId item) = true)
          by (apply truthy_string_true; exact Hp).
        assert (T2 : truthy (cl_price item) = true).
        { apply truthy_Q_true. intros E. rewrite E in Hr.
          apply (Qlt_irrefl 0 Hr). }
        assert (T3 : truthy (cl_quantity item) = true).
        { apply truthy_Q_true. intros E. rewrite E in Hq.
          apply (Qlt_not_le 0 1); [reflexivity | exact Hq]. }
        assert (T4 : truthy (cl_size item) = true)
          by (apply truthy_string_true; exact Hs).
        rewrite T1, T2, T3, T4. reflexivity. }
  destruct H as (its & Hp & Hlen & Hall). exists its. repeat split; auto.
  intros ->. destruct cart; [congruence | discriminate].
Qed.

Section CheckoutFacts.

Variable castsToObjectId : string -> bool.
Variable sanitizeObject : Address -> Address.
Variable sanitizeEmail : option string -> option string.
Variable sanitizePhone : option string -> option string.
Variable sanitizeAmount : option Q -> Q.
Hypothesis sanitize_cent : sanitizesWithinCent sanitizeAmount.

Lemma processItems_subtotal prods its l :
  processItems castsToObjectId prods its noLines = inr l ->
  calculatedSubtotal l = lineSum (orderItems l).
Proof.
  intros Hl. apply processItems_done in Hl as (lines & HF & Ho & _ & Hc).
  rewrite Hc, Ho. simpl. unfold lineSum. apply lineSum_itemTotals.
  clear Ho Hc. induction HF as [|it [oi su] its' lines' Hit _ IH]; simpl;
    constructor; [|exact IH].
  apply processItem_line in Hit
    as (? & ? & ? & ? & ? & ? & _ & _ & _ & _ & _ & _ & _ & _ & Ht & _).
  exact Ht.
Qed.

Lemma prepareCartItems_lines cart its :
  prepareCartItems cart = inr its ->
  Forall2 (fun line it =>
             ci_product it = Some (lineProductId line) /\
             ci_price it = Some (cl_price line) /\
             ci_quantity it = Some (cl_quantity line) /\
             ci_size it = Some (cl_size line)) cart its.
Proof.
  revert its. induction cart as [|item cart IH]; intros its; simpl.
  - intros [= <-]. constructor.
  - destruct (isObjectIdString (lineProductId item)); [|discriminate].
    cbn [negb]. destruct (prepareCartItems cart) as [e|rest]; [discriminate|].
    intros [= <-]. constructor; [repeat split | apply IH; reflexivity].
Qed.


Lemma honest_lines prods cart its l :
  prepareCartItems cart = inr its ->
  Forall (listedLine prods) cart ->
  processItems castsToObjectId prods its noLines = inr l ->
  (getCartTotal cart == lineSum (orderItems l))%Q.
Proof.
  intros Hp Hh Hl.
  apply prepareCartItems_lines in Hp.
  apply processItems_done in Hl as (lines & HF & Ho & _ & _).
  rewrite Ho. simpl. clear Ho l. unfold getCartTotal, lineSum.
  revert its lines Hp HF.
  induction Hh as [|line cart Hline _ IH]; intros its lines Hp HF.
  - apply Forall2_nil_inv_l in Hp as ->. apply Forall2_nil_inv_l in HF as ->.
    reflexivity.
  - apply Forall2_cons_inv_l in Hp as (it & its' & (H1 & H2 & H3 & H4) & Hp & ->).
    apply Forall2_cons_inv_l in HF as ([oi su] & lines' & Hit & HF & ->).
    rewrite fmap_cons. cbn [fst].
    rewrite (sumQ_cons (fun x => cl_price x * cl_quantity x)%Q),
            (sumQ_cons (fun x => oi_price x * inject_Z (oi_quantity x))%Q).
    rewrite (IH its' lines' Hp HF).
    apply processItem_line in Hit
      as (pid & nm & pr & qty & sz & product & Hr & Hprod & _ & _ & _ & _
          & Hprice & Hqty & _).
    apply readItem_Some in Hr as (R1 & _ & R3 & R4 & R5 & _).
    rewrite H1 in R1. rewrite H2 in R3. rewrite H3 in R4. rewrite H4 in R5.
    simplify_eq.
    destruct Hline as (p & listed & n & Hl1 & Hl2 & Hl3 & Hl4 & Hl5 & Hl6).
    assert (Hbound : (Z.abs n < 10 ^ 21)%Z).
    { unfold maxSafeInteger in Hl6.
      change (10 ^ 21)%Z with 1000000000000000000000%Z. lia. }
    rewrite Hl1 in Hprod. injection Hprod as <-.
    assert (Ep : oi_price oi = listed).
    { rewrite Hprice. unfold resolvePrice, jsOr. rewrite Hl2.
      apply truthy_Q_true in Hl3. rewrite Hl3. reflexivity. }
    rewrite Ep, Hqty, (parseInt_integer _ _ Hl5 Hbound), Hl4, Hl5.
    reflexivity.
Qed.

Lemma processItems_not_amount prods its acc e :
  processItems castsToObjectId prods its acc = inl e ->
  forall a b, e <> AmountValidationFailed a b.
Proof.
  revert acc. induction its as [|it rest IH]; intros acc; simpl; [discriminate|].
  destruct (processItem castsToObjectId prods it) as [e'|[oi su]] eqn:E; [|apply IH].
  intros [= <-] a b. unfold processItem in E.
  destruct (readItem it) as [[[[[pid nm] pr] qty] sz]|]; [|congruence].
  destruct (castsToObjectId pid); cbn [negb] in E; [|congruence].
  destruct (prods !! pid); [|congruence].
  destruct (Qltb _ _); congruence.
Qed.

Lemma honest_total_within cart its info method cost l :
  (getCartTotal cart == calculatedSubtotal l)%Q ->
  amountMismatch sanitizeAmount (orderData cart its info method cost) l = false.
Proof.
  intros Hsub. unfold amountMismatch. apply Qltb_false.
  unfold calculatedTotal, clientTotal, finalTax, finalShippingCost,
    finalSubtotal, orderData, checkoutTotal, checkoutTax, checkoutSubtotal.
  cbn [shippingCost totalAmount].
  set (sub := calculatedSubtotal l) in *.
  set (fs := sanitizeAmount (Some sub)).
  set (fship := sanitizeAmount (Some cost)).
  set (ftax := sanitizeAmount (Some (fs * (16 # 100))%Q)).
  set (ct := sanitizeAmount (Some (fs + fship + ftax)%Q)).
  set (client := (getCartTotal cart + cost + getCartTotal cart * (16 # 100))%Q).
  set (cl := sanitizeAmount (Some client)).
  pose proof (sanitize_cent sub) as H1. fold fs in H1.
  pose proof (sanitize_cent cost) as H2. fold fship in H2.
  pose proof (sanitize_cent (fs * (16 # 100))%Q) as H3. fold ftax in H3.
  pose proof (sanitize_cent (fs + fship + ftax)%Q) as H4. fold ct in H4.
  pose proof (sanitize_cent client) as H5. fold cl in H5.
  apply Qabs_Qle_condition in H1, H2, H3, H4, H5.
  apply Qabs_Qle_condition.
  unfold client in H5. clearbody fs fship ftax ct cl sub.
  split; lra.
Qed.

Lemma createOrder_amount_failure env user req st a b :
  fst (createOrder castsToObjectId sanitizeObject sanitizeEmail sanitizePhone sanitizeAmount
         env user req st) = Failed (AmountValidationFailed a b) ->
  exists its l,
    items req = Some its /\
    processItems castsToObjectId (products st) its noLines = inr l /\
    amountMismatch sanitizeAmount req l = true.
Proof.
  unfold createOrder.
  destruct (isAdmin user); [discriminate|].
  destruct (shippingAddress req) as [raw|]; [|discriminate].
  destruct (items req) as [[|it rest]|]; [discriminate| |discriminate].
  destruct (paymentMethod req) as [m|]; [|discriminate].
  destruct (negb (truthy m)); [discriminate|].
  destruct (_ || _); [discriminate|].
  destruct (processItems castsToObjectId (products st) (it :: rest) noLines) as [e|l] eqn:El.
  - simpl. intros [= ->]. exfalso.
    apply (processItems_not_amount _ _ _ _ El a b). reflexivity.
  - destruct (amountMismatch sanitizeAmount req l) eqn:Em; [|discriminate].
    intros _. eauto.
Qed.

(** X24 (Checkout.jsx, the totals of processOrder, then the amount check of
    createOrder): when every line of the cart shows a listed product and
    size at the listed price with a whole quantity within the safe integers
    (up to 9007199254740991 either way), the order the checkout page
    submits is never refused for an amount mismatch, for every shipping
    cost and every sanitizeAmount that moves an amount by at most one
    hundredth. *)
Theorem honest_checkout_passes_amount_check env user st cart its info method cost :
  prepareCartItems cart = inr its ->
  Forall (listedLine (products st)) cart ->
  forall a b,
    fst (createOrder castsToObjectId sanitizeObject sanitizeEmail sanitizePhone sanitizeAmount
           env user (orderData cart its info method cost) st)
    <> Failed (AmountValidationFailed a b).
Proof.
  intros Hp Hh a b Hf.
  apply createOrder_amount_failure in Hf as (its' & l & Hi & Hl & Hm).
  cbn [items orderData] in Hi. injection Hi as <-.
  rewrite honest_total_within in Hm; [discriminate|].
  rewrite (processItems_subtotal _ _ _ Hl).
  eapply honest_lines; eauto.
Qed.

End CheckoutFacts.

(** ** The lock on failed logins *)

(** X25 (controllers/authController.js, loginCustomer and loginAdmin):
    while the lock of an account runs, both logins answer 423 whatever the
    password, and leave the account as it is. *)
Theorem locked_account_refuses_login now a :
  isLocked now a = true ->
  (isAdmin (acc_user a) = false ->
   forall passwordMatches mailSent,
     loginCustomer now passwordMatches mailSent (Some a)
     = (LoginRefused 423, Some a)) /\
  (u_userType (acc_user a) = Some "admin" ->
   forall passwordMatches,
     loginAdmin now passwordMatches (Some a) = (LoginRefused 423, Some a)).
Proof.
  intros Hl. split.
  - intros Ha pw mail. unfold loginCustomer. rewrite Ha, Hl. reflexivity.
  - intros Ht pw. unfold loginAdmin.
    rewrite bool_decide_eq_true_2 by exact Ht. cbn [negb]. rewrite Hl. reflexivity.
Qed.

(** X26 (controllers/authController.js, loginCustomer and loginAdmin): a
    wrong password on an unlocked account counts one failure more; the
    customer login locks the account for two hours, answering 423, from the
    fourth counted failure on, the admin login from the fifth; below that
    the answer is 401 and no lock is set. *)
Theorem failed_login_thresholds now a :
  isLocked now a = false -> (0 <= failures a)%Z ->
  (isAdmin (acc_user a) = false ->
   forall mailSent,
     loginCustomer now false mailSent (Some a)
     = if (4 <=? failures a + 1)%Z
       then (LoginRefused 423,
             Some (setLock a (Some (failures a + 1)%Z) (Some (now + lockTime)%Z)))
       else (LoginRefused 401,
             Some (setLock a (Some (failures a + 1)%Z) (acc_lockUntil a)))) /\
  (u_userType (acc_user a) = Some "admin" -> acc_isActive a <> Some false ->
   loginAdmin now false (Some a)
   = if (5 <=? failures a + 1)%Z
     then (LoginRefused 423,
           Some (setLock a (Some (failures a + 1)%Z) (Some (now + lockTime)%Z)))
     else (LoginRefused 401,
           Some (setLock a (Some (failures a + 1)%Z) (acc_lockUntil a)))).
Proof.
  intros Hl H0. unfold failures in *. split.
  - intros Ha mail. unfold loginCustomer. rewrite Ha, Hl. cbn [negb].
    destruct (acc_loginAttempts a) as [n|]; simpl in *.
    + destruct (Z.leb_spec 5 (n + 1 + 1)), (Z.leb_spec 4 (n + 1));
        try lia; reflexivity.
    + reflexivity.
  - intros Ht Hact. unfold loginAdmin.
    rewrite bool_decide_eq_true_2 by exact Ht. cbn [negb]. rewrite Hl.
    rewrite bool_decide_eq_false_2 by exact Hact. cbn [negb].
    assert (J : jsOr (acc_loginAttempts a) 0%Z
                = default 0%Z (acc_loginAttempts a)).
    { unfold jsOr. destruct (acc_loginAttempts a) as [n|]; [|reflexivity].
      simpl. unfold truthy, truthy_Z. destruct (Z.eqb_spec n 0); simpl; congruence. }
    rewrite J. reflexivity.
Qed.

(** X27 (controllers/authController.js, loginCustomer): the right password
    on an unlocked customer account without two-factor login leaves no
    counted failure and no lock, whether the login succeeds or is answered
    403 for want of verification; with two-factor login the account is
    left as it is, counted failures included. *)
Theorem successful_login_clears_lock now a :
  isLocked now a = false -> isAdmin (acc_user a) = false ->
  (0 <= failures a)%Z ->
  (acc_twoFactorEnabled a = false ->
   forall mailSent, exists answer a',
     loginCustomer now true mailSent (Some a) = (answer, Some a') /\
     answer = (if acc_isVerified a then LoggedIn else LoginRefused 403) /\
     failures a' = 0%Z /\ acc_lockUntil a' = None) /\
  (acc_twoFactorEnabled a = true ->
   forall mailSent,
     snd (loginCustomer now true mailSent (Some a)) = Some a).
Proof.
  intros Hl Ha H0. split.
  - intros H2 mail. unfold loginCustomer. rewrite Ha, Hl, H2. cbn [negb].
    assert (R : failures (resetLock a) = 0%Z /\ acc_lockUntil (resetLock a) = None
                /\ acc_isVerified (resetLock a) = acc_isVerified a).
    { unfold resetLock, failures in *.
      destruct (acc_loginAttempts a) as [n|] eqn:En;
        destruct (acc_lockUntil a) as [t|] eqn:Et; simpl in *.
      - rewrite orb_true_r. simpl. auto.
      - rewrite orb_false_r. destruct (Z.ltb_spec 0 n); simpl; auto.
        rewrite En, Et. simpl. repeat split; auto. lia.
      - auto.
      - rewrite En, Et. auto. }
    destruct R as (Rf & Rl & Rv). rewrite Rv.
    destruct (acc_isVerified a); simpl; eauto 6.
  - intros H2 mail. unfold loginCustomer. rewrite Ha, Hl, H2. cbn [negb].
    destruct mail; reflexivity.
Qed.

(** ** The further properties on the sample data *)

Lemma preSaveSlug_keeps_slug_witness :
  preSaveSlug Demo.slugs "k3x9q" Demo.renamed = Some "house-blend".
Proof.
  destruct (preSaveSlug_keeps_slug Demo.slugs "k3x9q" Demo.renamed
              "house-blend" eq_refl ltac:(discriminate))
    as (_ & _ & Hkeep & _).
  apply Hkeep; reflexivity.
Defined.

Lemma checkAvailability_decreaseStock_witness :
  checkAvailability (Some 2%Z) Sample.houseBlend = true /\
  ProductModel.decreaseStock 2 Sample.houseBlend
  = ProductModel.Saved (setStock Sample.houseBlend 3 true).
Proof.
  destruct (checkAvailability_decreaseStock Sample.houseBlend 2
              ltac:(split; [vm_compute; discriminate | reflexivity]) eq_refl)
    as (_ & _ & Hdec).
  split; [reflexivity | apply Hdec; reflexivity].
Defined.

Lemma createOrder_then_getOrderById_witness :
  exists o,
    getOrderById isObjectIdString Demo.accounts Sample.customer
      Sample.orderId Sample.shopWithOrder = Sent o /\
    getOrderById isObjectIdString Demo.accounts
      {| u_id := "64b7f0c2a1d3e4f5a6b70003"; u_userType := Some "customer";
         u_role := Some "customer" |}
      Sample.orderId Sample.shopWithOrder
    = Failure 403 "Not authorized to view this order".
Proof.
  eexists.
  destruct (createOrder_then_getOrderById isObjectIdString Demo.accounts
              isObjectIdString (fun a => a) (fun e => e) (fun p => p)
              Sample.roundCents
              Sample.env Sample.customer Sample.honest Sample.shop _
              eq_refl eq_refl ltac:(vm_compute; reflexivity))
    as [Hown Hother].
  split; [exact Hown|].
  apply Hother; discriminate.
Defined.

Lemma getUserOrders_own_witness :
  exists found pg,
    getUserOrders (fun l => l) (Some Sample.customer) None None
      Sample.shopWithOrder = Sent (found, pg) /\
    Forall (fun o => o_user o = u_id Sample.customer) found /\
    pg_total pg = 1%Z.
Proof.
  eexists. eexists. split; [reflexivity|].
  destruct (getUserOrders_own (fun l => l) ltac:(reflexivity)
              (Some Sample.customer) None None Sample.shopWithOrder _ _ eq_refl)
    as (u & Hu & Hown & Htotal).
  split.
  - apply Forall_forall. intros o Ho. injection Hu as <-. apply (Hown o Ho).
  - reflexivity.
Defined.


Lemma createOrder_decrements_stock_witness :
  exists inStock,
    products Sample.shopWithOrder !! Sample.blendId
    = Some (setStock Sample.houseBlend 3 inStock).
Proof.
  destruct (createOrder_decrements_stock
              isObjectIdString (fun a => a) (fun e => e) (fun p => p)
              Sample.roundCents
              Sample.env Sample.customer Sample.honest Sample.shop _ eq_refl)
    as [Hstock _].
  apply (Hstock Sample.blendId Sample.houseBlend). reflexivity.
Defined.


(** A quantity of nine ten-millionths passes the stock test against five
    packs and takes nine off the shelf. *)
Lemma createOrder_tiny_quantity_overdraws :
  parseInt (9 # 10000000) = 9%Z /\
  statusCode (fst (Sample.place Sample.customer Demo.tinyQuantity Sample.shop))
    = 201%Z /\
  p_stock <$> products (snd (Sample.place Sample.customer Demo.tinyQuantity
                               Sample.shop)) !! Sample.blendId
    = Some (-4)%Z.
Proof. vm_compute. repeat split. Qed.

Lemma stockUpdateAlerts_distinct_witness :
  setStock Sample.houseBlend 2 true
    ∈ stockUpdateAlerts (products Sample.shop) [Demo.threePacks].
Proof.
  apply (stockUpdateAlerts_distinct (products Sample.shop) [Demo.threePacks]
           ltac:(vm_compute; apply NoDup_singleton)).
  exists Demo.threePacks.
  split; [apply list_elem_of_here | split; reflexivity].
Defined.

Lemma adminUpdateOrderStatus_ignores_table_witness :
  (exists o',
     fst (adminUpdateOrderStatus 1700000100000 Sample.orderId "delivered" None
            Sample.shopWithOrder) = Updated o' /\
     o_status o' = "delivered") /\
  updateOrderStatus 1700000100000 Sample.orderId (Sample.moveTo "delivered")
    Sample.shopWithOrder
  = (Refused (InvalidTransition "confirmed" "delivered"), Sample.shopWithOrder).
Proof.
  destruct (adminUpdateOrderStatus_ignores_table 1700000100000 Sample.orderId
              "delivered" None Sample.shopWithOrder _ eq_refl)
    as [(o' & Hadmin & Hstatus & _) Hrefused].
  split.
  - exists o'. rewrite Hadmin. split; [reflexivity | exact Hstatus].
  - apply Hrefused; reflexivity.
Defined.

Lemma validateSizes_listed_price_witness :
  exists sizes,
    validateSizes 0 Demo.formSizes = inr sizes /\
    sizes = p_sizes Sample.houseBlend /\
    resolvePrice Sample.houseBlend "500g" 1 = 900%Q.
Proof.
  eexists. split; [reflexivity|]. split; [reflexivity|].
  apply (validateSizes_listed_price 0 Demo.formSizes _ eq_refl
           Sample.houseBlend "500g" 900 1 eq_refl eq_refl).
Defined.

Lemma addToCart_keeps_lines_distinct_witness :
  NoDup (lineKey <$> addToCart Demo.catalogBlend (Some 1%Q) (Some "500g")
                       [Demo.twoPacks]).
Proof.
  apply (addToCart_keeps_lines_distinct Demo.catalogBlend (Some 1%Q)
           (Some "500g") [Demo.twoPacks]).
  vm_compute. apply NoDup_singleton.
Defined.

Lemma removeFromCart_after_addToCart_witness :
  removeFromCart Sample.blendId (Some "500g")
    (addToCart Demo.catalogBlend (Some 1%Q) (Some "500g") [Demo.twoPacks])
  = [Demo.twoPacks].
Proof.
  destruct (removeFromCart_after_addToCart Demo.catalogBlend (Some 1%Q)
              (Some "500g") [Demo.twoPacks] Sample.blendId 900 "500g"
              eq_refl ltac:(discriminate)) as (_ & _ & Hback).
  apply Hback. repeat constructor. discriminate.
Defined.

Lemma validated_cart_passes_structure_check_witness :
  validateCartItems [Demo.twoPacks] = None /\
  exists its,
    prepareCartItems [Demo.twoPacks] = inr its /\ length its = 1%nat /\
    Forall (fun it => itemInvalid it = false) its.
Proof.
  split; [reflexivity|].
  destruct (validated_cart_passes_structure_check [Demo.twoPacks] eq_refl
              ltac:(repeat constructor))
    as (its & Hprep & _ & Hlen & Hok).
  exists its. split; [exact Hprep|]. split; [exact Hlen | exact Hok].
Defined.

Lemma honest_checkout_passes_amount_check_witness :
  exists its,
    prepareCartItems [Demo.twoPacks] = inr its /\
    forall a b,
      fst (Sample.place Sample.customer
             (orderData [Demo.twoPacks] its Sample.nairobi "cod" 300)
             Sample.shop)
      <> Failed (AmountValidationFailed a b).
Proof.
  eexists. split; [reflexivity|].
  apply (honest_checkout_passes_amount_check
           isObjectIdString (fun a => a) (fun e => e) (fun p => p)
              Sample.roundCents
           roundCents_within Sample.env Sample.customer Sample.shop
           [Demo.twoPacks] _ Sample.nairobi "cod" 300 eq_refl).
  constructor; [|constructor].
  exists Sample.houseBlend, 500%Q, 2%Z.
  split; [reflexivity|]. split; [reflexivity|].
  split; [vm_compute; discriminate|]. split; [reflexivity|].
  split; [reflexivity | vm_compute; discriminate].
Defined.

Lemma locked_account_refuses_login_witness :
  loginCustomer 1700000100000 true true (Some Demo.lockedShopper)
  = (LoginRefused 423, Some Demo.lockedShopper).
Proof.
  destruct (locked_account_refuses_login 1700000100000 Demo.lockedShopper
              eq_refl) as [Hcustomer _].
  apply Hcustomer. reflexivity.
Defined.

Lemma failed_login_thresholds_witness :
  loginCustomer 1700000012345 false true (Some Demo.shopper)
  = (LoginRefused 423, Some Demo.lockedShopper) /\
  fst (loginAdmin 1700000012345 false
         (Some (setLock Demo.manager (Some 3%Z) None))) = LoginRefused 401 /\
  fst (loginAdmin 1700000012345 false (Some Demo.manager)) = LoginRefused 423.
Proof.
  destruct (failed_login_thresholds 1700000012345 Demo.shopper eq_refl
              ltac:(vm_compute; discriminate)) as [Hcustomer _].
  destruct (failed_login_thresholds 1700000012345
              (setLock Demo.manager (Some 3%Z) None) eq_refl
              ltac:(vm_compute; discriminate)) as [_ Hfourth].
  destruct (failed_login_thresholds 1700000012345 Demo.manager eq_refl
              ltac:(vm_compute; discriminate)) as [_ Hfifth].
  split; [|split].
  - rewrite (Hcustomer eq_refl true). reflexivity.
  - rewrite (Hfourth eq_refl ltac:(discriminate)). reflexivity.
  - rewrite (Hfifth eq_refl ltac:(discriminate)). reflexivity.
Defined.

Lemma successful_login_clears_lock_witness :
  exists a',
    loginCustomer 1700000012345 true true (Some Demo.shopper)
    = (LoggedIn, Some a') /\
    failures a' = 0%Z /\ acc_lockUntil a' = None.
Proof.
  destruct (successful_login_clears_lock 1700000012345 Demo.shopper
              eq_refl eq_refl ltac:(vm_compute; discriminate))
    as [Hplain _].
  destruct (Hplain eq_refl true) as (answer & a' & Hlogin & Hanswer & Hf & Hl).
  exists a'. rewrite Hlogin, Hanswer. split; [reflexivity | split; assumption].
Defined.
